(* ===== verification/_CoqProject ===== *)
-Q . S2P
Prelude.v
Calendar.v
Frame.v
ValueCounts.v
Widgets.v
Filters.v
Query.v
App.v
Session.v
