(* ===== verification/Prelude.v ===== *)
(** * A verification development of the GDELT history dashboard (src/app.py)

    ** The program
    [src/app.py] is a Streamlit script.  The host runs it top to bottom on
    every interaction with the page.  It reads three sidebar selectors, plus
    two date pickers when "Custom Date Range" is chosen, and computes a date
    window and a list of query clauses from them.  It joins the clauses into
    one query string and hands that string to the GDELT client
    ([gdelt_conn.Search]).  It then shows the fetched table with its columns
    selected and renamed, and a bar chart of [value_counts] of the
    "Event Root Code" column.  Everything the page shows is appended to the
    page in program order.  An exception raised inside the [try] block of
    lines 87-120 is caught and shown as two error lines.  An exception
    raised before the [try] is not caught and ends the run.

    ** Library layout (the files in _CoqProject order)
    - [Prelude] (this file): the shared notation scope [gdelt_scope];
      Python's [str.join] and [str.split]; fixed-width and free decimal
      printing of integers; the generic output-and-exception monad [Script]
      that models a script run; the hint database [gdelt] and the shared
      tactics.
    - [Calendar]: Python's proleptic Gregorian [date]/[datetime] as
      ordinals (the [_ymd2ord] / [_ord2ymd] functions of CPython's
      datetime module), [datetime - timedelta(days=n)] with its
      [OverflowError], [datetime.combine] with [time.min]/[time.max], and
      [strftime('%Y%m%d')].  Lines 16-36 of app.py use all of these.
    - [Frame]: the pandas values the script touches: cells, a
      [DataFrame] as an ordered list of named columns, [.empty], [len],
      [df[list]] with its [KeyError], [.rename(columns=...)] and [df[col]].
    - [ValueCounts] (MathComp): [Series.value_counts()] as a one-pass tally
      sorted by decreasing count, proved equal to the reference
      "count each distinct value" definition.
    - [Widgets]: the Streamlit widgets the script calls ([selectbox],
      [date_input]) as functions of the persisted widget state, and the
      page elements the script emits.
    - [Filters]: the filter resolver: the time-span chain (lines 13-36),
      the region chain (lines 40-53) and the event-type chain (lines 57-68).
    - [Query]: the query builder (lines 75-83) and the clause contract.
    - [App]: the whole script as one [Script] computation (lines 10-120),
      the fetch/present path in the [try] block with the GDELT client as
      an injected dependency (the class [GdeltSearch]), and the rerun loop
      of the host as a step relation on the widget state.  [app] is the
      part before the [try] ([app_prefix], lines 10-85) followed by the
      [try] block ([fetch_and_present], lines 87-120).
    - [Session] (ITree): the same run as an interaction tree, where each
      page element is a [Show] event and [gdelt_conn.Search] is a [Fetch]
      event that blocks until the service answers.
    Only [ValueCounts] loads MathComp and only [Session] loads ITree; the
    other files use the Standard Library alone.

    ** How the parts interact
    [App.app] calls [Filters.time_span_filter] (which calls
    [Widgets.selectbox], [Widgets.date_input] and the [Calendar]
    operations), then the two selectboxes and [Filters.region_filter_of],
    [Filters.event_filter_of], then [Query.query_params] and
    [Query.query_string], and finally [App.fetch_and_present], which calls
    [Search], [App.present] (the [Frame] operations and
    [ValueCounts.value_counts_cells]) and, on an exception,
    [App.error_lines].  [Session.app_it] replays [App.app_prefix] as
    page events and then waits on [Fetch] with the query string.

    ** The theorems
    - Whole runs ([App]): the rerun loop reaches exactly the widget states
      whose selectbox indices are in range ([reachable_iff_ws_ok]), and
      from each of them a run ends without an uncaught exception when
      [now] is past day 180 ([rerun_safe]).  The one escaping exception is
      the [OverflowError] of line 22 before day 91
      ([app_overflow_uncaught]).  From every such state the user can reach
      any selection of time span, region and category
      ([selection_reachable]), and the query a run shows is the rendering
      of the spec's clause list ([app_query_refines]).
    - Interactions ([Session]): with an answering service the interactive
      run is exactly [App.app] ([app_it_refines]); every run makes
      finitely many interactions ([app_it_finite]); with a silent service
      the run shows the page up to the fetching line and never ends
      ([app_it_blocks]).
    - The [try] block ([App]): the exact page on a failed fetch, on an
      empty result, on a result missing a column, and on a good result
      (table of N rows, bar chart whose counts add up to the non-missing
      root codes).
    - Filters and query ([Filters], [Query]): the window of each time
      span, the types of the date strings (eight digits), the custom
      range taken without a start <= end check, the dead fallback of
      lines 34-36, the refinement of the spec's
      clause list by [query_params], and reading the joined query back
      (which fails for "Northern Ireland").
    - Libraries ([Calendar], [Frame], [ValueCounts]): [_ord2ymd] and
      [_ymd2ord] are inverse, [strftime('%Y%m%d')] is order preserving on
      eight digits, [timedelta] subtraction raises exactly out of range,
      [df[keys]] on both branches, and [value_counts] equals the reference
      frequency table up to the order of equal counts.

    ** Bounds
    Dates are CPython ordinals in [1, 3652059] (0001-01-01 to
    9999-12-31).  The round trips are proved on every ordinal: one 400-year
    cycle (146097 days) is checked by evaluation and the calendar repeats
    with that period.  Safety of a run needs [now] past day 180, the
    largest offset a preset subtracts; before day 91 the default page
    raises, which [app_overflow_uncaught] shows.  There is no fuel: every
    definition is structural, and the one unbounded wait (the fetch) is
    an event of [Session], whose non-termination [app_it_blocks] states
    with ITree's [any_finite].

    ** Not modelled
    How Streamlit draws the page (the model records which elements are
    emitted with which data), the network and the internals of the gdelt
    library (any [Search] function, or any answer to [Fetch], is allowed:
    how the library builds the HTTP request and parses the reply is
    outside src/), the wall clock ([now] is a parameter of a run), the
    host's rerun loop as an interaction tree (it is the relation [step]
    instead, since its liveness is about which states the user can
    reach), and the exact text of library exception messages other than
    the ones modelled ([exn_str] prints a [KeyError] as its labels
    followed by "not in index", where pandas prints the list's repr).
    Two Streamlit details are left out of the widget state: the date
    pickers' default bounds (the value plus or minus ten years), so a
    picked day is any ordinal, and the clearing of a widget's value when
    a run does not render it, so a picked day is kept while "Custom Date
    Range" is not selected.  Neither changes a run: the days are read only
    when the pickers are rendered, and the theorems hold for every day.
    Lines 1-9 (imports and the client's construction)
    hold no behaviour beyond the [GdeltSearch] instance.

    ** Conventions
    Python strings are Stdlib [string]s and Python [==] on them is
    [String.eqb].  Python ints are [Z] or [nat].  A Python exception is a
    value of the [exn] type of the component that raises it, carried by
    [Script].  A definition keeps the name of the Python variable or
    function it models.
*)

From Stdlib Require Import String Ascii List ZArith Lia Bool DecimalString.
Import ListNotations.
Open Scope string_scope.

Declare Scope gdelt_scope.
Delimit Scope gdelt_scope with gdelt.

Create HintDb gdelt.
Create Rewrite HintDb gdelt_rw.

(** ** Small tactics shared by the components *)

Ltac inv H := inversion H; subst; clear H.

(** Case analysis on a Python string comparison [s == t]. *)
Ltac case_streq s t :=
  destruct (String.eqb_spec s t); subst; try discriminate.

(** ** Python's [sep.join(xs)] *)

Fixpoint join (sep : string) (xs : list string) : string :=
  match xs with
  | [] => ""
  | [x] => x
  | x :: rest => x ++ sep ++ join sep rest
  end.

(** ** Python's [s.split(c)] with an explicit one-character separator:
    every occurrence splits, so [""] gives [[""]]. *)

Fixpoint split_on (c : ascii) (s : string) : list string :=
  match s with
  | EmptyString => [""]
  | String a rest =>
      if Ascii.eqb a c then "" :: split_on c rest
      else match split_on c rest with
           | [] => [String a ""]
           | w :: ws => String a w :: ws
           end
  end.

(** A string mentions the character [c]. *)
Fixpoint has_char (c : ascii) (s : string) : bool :=
  match s with
  | EmptyString => false
  | String a rest => Ascii.eqb a c || has_char c rest
  end.

(** The number of occurrences of [c] in a string. *)
Fixpoint count_char (c : ascii) (s : string) : nat :=
  match s with
  | EmptyString => 0
  | String a rest => (if Ascii.eqb a c then 1 else 0) + count_char c rest
  end.

(** ** Decimal printing *)

Definition digit_char (d : Z) : ascii := ascii_of_nat (48 + Z.to_nat d).

Definition char_digit (a : ascii) : option Z :=
  let n := nat_of_ascii a in
  if (48 <=? n)%nat && (n <=? 57)%nat then Some (Z.of_nat n - 48)%Z else None.

(** [zpad w z]: the last [w] decimal digits of [z], zero padded; the
    [%04d]-style fields of [strftime]. *)
Fixpoint zpad (w : nat) (z : Z) : string :=
  match w with
  | O => ""
  | S w' => zpad w' (z / 10) ++ String (digit_char (z mod 10)) ""
  end.

(** Reading a string of decimal digits back, most significant first. *)
Fixpoint parse_digits_acc (acc : Z) (s : string) : option Z :=
  match s with
  | EmptyString => Some acc
  | String a rest =>
      match char_digit a with
      | Some d => parse_digits_acc (acc * 10 + d) rest
      | None => None
      end
  end.

Definition parse_digits (s : string) : option Z := parse_digits_acc 0 s.

(** A string made of decimal digits only. *)
Fixpoint all_digits (s : string) : bool :=
  match s with
  | EmptyString => true
  | String a rest => match char_digit a with Some _ => all_digits rest | None => false end
  end.

(** Python's [str(n)] on a non-negative int, as the f-strings print it. *)
Definition py_str_nat (n : nat) : string :=
  NilEmpty.string_of_uint (Nat.to_uint n).

(** ** The script monad: page outputs and a Python exception

    A run of a script appends page elements of type [O] in order and either
    finishes with a value or stops with an exception of type [E].  Outputs
    emitted before an exception stay on the page, as they do in Streamlit. *)

Definition Script (O E A : Type) : Type := (list O * (E + A))%type.

Section ScriptOps.
Context {O E : Type}.

Definition sret {A} (a : A) : Script O E A := ([], inr a).

Definition sbind {A B} (m : Script O E A) (k : A -> Script O E B)
  : Script O E B :=
  match m with
  | (o, inl e) => (o, inl e)
  | (o, inr a) => let (o', r) := k a in (app o o', r)
  end.

Definition emit (x : O) : Script O E unit := ([x], inr tt).

Definition raise {A} (e : E) : Script O E A := ([], inl e).

(** A fallible library call: its error becomes the raised exception. *)
Definition lift {A} (r : E + A) : Script O E A := ([], r).

(** [try: m except Exception as e: h e]. *)
Definition try_except {A} (m : Script O E A) (h : E -> Script O E A)
  : Script O E A :=
  match m with
  | (o, inl e) => let (o', r) := h e in (app o o', r)
  | _ => m
  end.

Definition outputs {A} (m : Script O E A) : list O := fst m.
Definition outcome {A} (m : Script O E A) : E + A := snd m.
End ScriptOps.

Notation "x <- m ;; k" := (sbind m (fun x => k))
  (at level 61, m at next level, right associativity) : gdelt_scope.
Notation "m ;;; k" := (sbind m (fun _ => k))
  (at level 61, right associativity) : gdelt_scope.

(** ** Generic lemmas *)

Section ScriptLaws.
Context {O E : Type}.

Lemma sbind_ret_l {A B} (a : A) (k : A -> Script O E B) :
  sbind (sret a) k = k a.
Proof. unfold sbind, sret. destruct (k a). reflexivity. Qed.

Lemma sbind_ret_r {A} (m : Script O E A) : sbind m sret = m.
Proof.
  destruct m as [o [e|a]]; simpl; [reflexivity|].
  rewrite app_nil_r. reflexivity.
Qed.

Lemma sbind_assoc {A B C} (m : Script O E A) (k : A -> Script O E B)
  (k' : B -> Script O E C) :
  sbind (sbind m k) k' = sbind m (fun a => sbind (k a) k').
Proof.
  destruct m as [o [e|a]]; simpl; [reflexivity|].
  destruct (k a) as [o1 [e1|b]]; simpl; [reflexivity|].
  destruct (k' b) as [o2 r2]. rewrite app_assoc. reflexivity.
Qed.

Lemma sbind_outputs_ok {A B} (o : list O) (a : A) (k : A -> Script O E B) :
  sbind (o, inr a) k = (app o (outputs (k a)), outcome (k a)).
Proof. simpl. destruct (k a). reflexivity. Qed.

Lemma sbind_raise {A B} (o : list O) (e : E) (k : A -> Script O E B) :
  sbind (o, inl e) k = (o, inl e).
Proof. reflexivity. Qed.

Lemma try_except_ok {A} (o : list O) (a : A) (h : E -> Script O E A) :
  try_except (o, inr a) h = (o, inr a).
Proof. reflexivity. Qed.

Lemma try_except_exn {A} (o : list O) (e : E) (h : E -> Script O E A) :
  try_except (o, inl e) h = (app o (outputs (h e)), outcome (h e)).
Proof. simpl. destruct (h e). reflexivity. Qed.
End ScriptLaws.

#[export] Hint Rewrite @sbind_ret_l @sbind_ret_r @sbind_assoc @sbind_raise
  @try_except_ok : gdelt_rw.

(** ** Lists *)

Lemma filter_negb_all {A} (p : A -> bool) (xs : list A) :
  Forall (fun x => p x = true) xs -> filter (fun x => negb (p x)) xs = [].
Proof. induction 1 as [|x xs Hx _ IH]; simpl; [reflexivity|]. rewrite Hx. exact IH. Qed.

(** ** Strings and decimal digits *)

Lemma string_length_app (s1 s2 : string) :
  String.length (s1 ++ s2) = (String.length s1 + String.length s2)%nat.
Proof. induction s1 as [|a s1 IH]; simpl; [reflexivity | rewrite IH; reflexivity]. Qed.

Lemma length_zpad (w : nat) (z : Z) : String.length (zpad w z) = w.
Proof.
  revert z. induction w as [|w IH]; intros z; simpl; [reflexivity|].
  rewrite string_length_app, IH. simpl. apply PeanoNat.Nat.add_1_r.
Qed.

Lemma char_digit_digit_char (d : Z) :
  (0 <= d < 10)%Z -> char_digit (digit_char d) = Some d.
Proof.
  intros Hd.
  assert (d = 0 \/ d = 1 \/ d = 2 \/ d = 3 \/ d = 4 \/ d = 5 \/ d = 6
          \/ d = 7 \/ d = 8 \/ d = 9)%Z as Hc by lia.
  repeat (destruct Hc as [Hc|Hc]; [subst; vm_compute; reflexivity|]); subst; vm_compute; reflexivity.
Qed.

Lemma parse_digits_acc_app (acc : Z) (s1 s2 : string) :
  parse_digits_acc acc (s1 ++ s2) =
  match parse_digits_acc acc s1 with
  | Some a => parse_digits_acc a s2
  | None => None
  end.
Proof.
  revert acc. induction s1 as [|c s1 IH]; intros acc; simpl; [reflexivity|].
  destruct (char_digit c); [apply IH | reflexivity].
Qed.

Lemma parse_digits_acc_zpad (w : nat) : forall (acc z : Z),
  (0 <= z < 10 ^ Z.of_nat w)%Z ->
  parse_digits_acc acc (zpad w z) = Some (acc * 10 ^ Z.of_nat w + z)%Z.
Proof.
  induction w as [|w IH]; intros acc z Hz; simpl zpad.
  - simpl in *. f_equal. lia.
  - rewrite Nat2Z.inj_succ, Z.pow_succ_r in * by lia.
    rewrite parse_digits_acc_app, IH.
    2: { split; [apply Z.div_pos; lia | apply Z.div_lt_upper_bound; lia]. }
    cbn [parse_digits_acc]. rewrite char_digit_digit_char by (apply Z.mod_pos_bound; lia).
    f_equal. pose proof (Z.div_mod z 10 ltac:(lia)). lia.
Qed.

(** Printing [z] on [w] digits and reading the digits back gives [z]. *)
Lemma parse_digits_zpad (w : nat) (z : Z) :
  (0 <= z < 10 ^ Z.of_nat w)%Z -> parse_digits (zpad w z) = Some z.
Proof. intros Hz. unfold parse_digits. rewrite parse_digits_acc_zpad by exact Hz. reflexivity. Qed.


#[export] Hint Rewrite string_length_app length_zpad : gdelt_rw.

(** ** Splitting a joined string *)

Lemma split_on_no_sep (c : ascii) (x : string) :
  has_char c x = false -> split_on c x = [x].
Proof.
  induction x as [|a x IH]; simpl; [reflexivity|].
  intros H. apply orb_false_iff in H as [Ha Hx]. rewrite Ha, IH by exact Hx. reflexivity.
Qed.

Lemma split_on_app_sep (c : ascii) (x s : string) :
  has_char c x = false -> split_on c (x ++ String c s) = x :: split_on c s.
Proof.
  induction x as [|a x IH]; simpl; intros H.
  - rewrite Ascii.eqb_refl. reflexivity.
  - apply orb_false_iff in H as [Ha Hx]. rewrite Ha, IH by exact Hx. reflexivity.
Qed.

(** [s.split(c)] undoes [c.join(xs)] when no piece contains [c]. *)
Lemma split_join (c : ascii) (xs : list string) :
  xs <> [] -> Forall (fun x => has_char c x = false) xs ->
  split_on c (join (String c "") xs) = xs.
Proof.
  intros Hne Hall. induction Hall as [|x xs Hx Hxs IH]; [contradiction|].
  destruct xs as [|y ys].
  - simpl. apply split_on_no_sep, Hx.
  - change (join (String c "") (x :: y :: ys))
      with (x ++ String c "" ++ join (String c "") (y :: ys)).
    simpl. rewrite split_on_app_sep by exact Hx. f_equal. apply IH. discriminate.
Qed.

(** ** Running the script monad *)

Lemma sbind_outcome_ok {O E A B} (m : Script O E A) (k : A -> Script O E B) (a : A) :
  outcome m = inr a -> outcome (sbind m k) = outcome (k a).
Proof.
  destruct m as [o [e|a']]; simpl; intros H; [discriminate|]. inv H.
  destruct (k a). reflexivity.
Qed.

(** An output of the continuation is an output of the whole sequence. *)
Lemma sbind_in_outputs {O E A B} (m : Script O E A) (k : A -> Script O E B) (a : A) (x : O) :
  outcome m = inr a -> In x (outputs (k a)) -> In x (outputs (sbind m k)).
Proof.
  destruct m as [o [e|a']]; simpl; intros H; [discriminate|]. inv H.
  destruct (k a) as [o' r]. simpl. intros Hx. apply in_or_app. right. exact Hx.
Qed.

(** An output of the first computation is an output of the sequence. *)
Lemma sbind_in_outputs_l {O E A B} (m : Script O E A) (k : A -> Script O E B) (x : O) :
  In x (outputs m) -> In x (outputs (sbind m k)).
Proof.
  destruct m as [o [e|a]]; simpl; [tauto|].
  destruct (k a) as [o' r]. simpl. intros Hx. apply in_or_app. left. exact Hx.
Qed.

(** A statement that cannot raise, at the head of a [try] block, can be
    moved before it. *)
Lemma try_except_emit {O E A} (x : O) (m : Script O E A) (h : E -> Script O E A) :
  try_except (sbind (emit x) (fun _ => m)) h = sbind (emit x) (fun _ => try_except m h).
Proof. destruct m as [o [e|a]]; simpl; [destruct (h e)|]; reflexivity. Qed.

Lemma all_digits_app (s1 s2 : string) :
  all_digits (s1 ++ s2) = all_digits s1 && all_digits s2.
Proof.
  induction s1 as [|a s1 IH]; simpl; [reflexivity|].
  destruct (char_digit a); [exact IH|reflexivity].
Qed.

(** Fixed-width printing only ever writes digits, whatever the integer. *)
Lemma all_digits_zpad (w : nat) : forall z : Z, all_digits (zpad w z) = true.
Proof.
  induction w as [|w IH]; intros z; [reflexivity|]. cbn [zpad].
  rewrite all_digits_app, IH. cbn [all_digits andb].
  rewrite char_digit_digit_char by (apply Z.mod_pos_bound; lia). reflexivity.
Qed.

(** What a sequence returns, its first part returned before. *)
Lemma sbind_outcome_inv {O E A B} (m : Script O E A) (k : A -> Script O E B) (b : B) :
  outcome (sbind m k) = inr b -> exists a, outcome m = inr a /\ outcome (k a) = inr b.
Proof.
  destruct m as [o [e|a]]; simpl; [discriminate|].
  destruct (k a) as [o' r] eqn:Ek. simpl. intros ->. exists a. rewrite Ek. auto.
Qed.

(** ** Counting separators *)

Lemma count_char_app (c : ascii) (s1 s2 : string) :
  count_char c (s1 ++ s2) = count_char c s1 + count_char c s2.
Proof. induction s1 as [|a s1 IH]; simpl; [reflexivity|]. rewrite IH. lia. Qed.

Lemma count_char_no_sep (c : ascii) (s : string) :
  has_char c s = false -> count_char c s = 0.
Proof.
  induction s as [|a s IH]; simpl; [reflexivity|].
  destruct (Ascii.eqb a c); simpl; [discriminate|exact IH].
Qed.

(** [s.split(c)] has one more piece than [s] has separators. *)
Lemma length_split_on (c : ascii) (s : string) :
  length (split_on c s) = S (count_char c s).
Proof.
  induction s as [|a s IH]; simpl; [reflexivity|].
  destruct (Ascii.eqb a c); simpl; [rewrite IH; reflexivity|].
  destruct (split_on c s) as [|w ws]; simpl in *; [discriminate|exact IH].
Qed.

(** [c.join(xs)] has the separators of its pieces plus one between each
    two. *)
Lemma count_char_join (c : ascii) (xs : list string) :
  count_char c (join (String c "") xs) = list_sum (map (count_char c) xs) + (length xs - 1).
Proof.
  induction xs as [|x [|y ys] IH]; simpl; [reflexivity|lia|].
  change (join (String c "") (y :: ys)) with (join (String c "") (y :: ys)) in *.
  rewrite count_char_app. simpl. rewrite Ascii.eqb_refl. simpl in IH. rewrite IH. lia.
Qed.
