(* ===== verification/Calendar.v ===== *)
(** * Calendar: the parts of Python's [datetime] that app.py uses

    app.py computes its date window with [datetime.now()],
    [datetime - timedelta(days=n)], [datetime.combine(d, time.min/max)]
    and [strftime('%Y%m%d')] (lines 17-36).  A [date] is a proleptic
    Gregorian ordinal, as in CPython's datetime module (day 1 is
    0001-01-01, the last day 9999-12-31 is [MAXORDINAL]).  A [datetime]
    (naive, no tzinfo) is an ordinal with the microsecond of the day.
    The conversions [_ymd2ord] and [_ord2ymd] follow CPython's
    Lib/_pydatetime.py line by line.

    The theorems: the two conversions are inverse on every ordinal and on
    every valid (year, month, day); subtracting [timedelta(days=n)] raises
    exactly when the result would fall before day 1; and
    [strftime('%Y%m%d')] prints eight digits whose value grows
    strictly with the date.  The last fact is what makes the query clauses
    [DATE>YYYYMMDD] / [DATE<YYYYMMDD] compare dates correctly. *)

From Stdlib Require Import String Ascii List ZArith Lia Bool.
From S2P Require Import Prelude.
Import ListNotations.
Open Scope Z_scope.

(** ** Year, month and day arithmetic (CPython's module-level helpers) *)

(** [_DAYS_IN_MONTH], index 0 a placeholder as in the source. *)
Definition DAYS_IN_MONTH : list Z :=
  [-1; 31; 28; 31; 30; 31; 30; 31; 31; 30; 31; 30; 31].

(** [_DAYS_BEFORE_MONTH], the running sums of [_DAYS_IN_MONTH]. *)
Definition DAYS_BEFORE_MONTH : list Z :=
  [-1; 0; 31; 59; 90; 120; 151; 181; 212; 243; 273; 304; 334].

Definition is_leap (year : Z) : bool :=
  (year mod 4 =? 0) && (negb (year mod 100 =? 0) || (year mod 400 =? 0)).

Definition days_before_year (year : Z) : Z :=
  let y := year - 1 in y * 365 + y / 4 - y / 100 + y / 400.

Definition days_in_month (year month : Z) : Z :=
  if (month =? 2) && is_leap year then 29
  else nth (Z.to_nat month) DAYS_IN_MONTH 0.

Definition days_before_month (year month : Z) : Z :=
  nth (Z.to_nat month) DAYS_BEFORE_MONTH 0
  + Z.b2z ((2 <? month) && is_leap year).

Definition ymd2ord (year month day : Z) : Z :=
  days_before_year year + days_before_month year month + day.

Definition DI400Y : Z := days_before_year 401.
Definition DI100Y : Z := days_before_year 101.
Definition DI4Y : Z := days_before_year 5.

(** [_ord2ymd]: ordinal to (year, month, day). *)
Definition ord2ymd (n0 : Z) : Z * Z * Z :=
  let n := n0 - 1 in
  let n400 := n / DI400Y in let n := n mod DI400Y in
  let year := n400 * 400 + 1 in
  let n100 := n / DI100Y in let n := n mod DI100Y in
  let n4 := n / DI4Y in let n := n mod DI4Y in
  let n1 := n / 365 in let n := n mod 365 in
  let year := year + (n100 * 100 + n4 * 4 + n1) in
  if (n1 =? 4) || (n100 =? 4) then (year - 1, 12, 31)
  else
    let leapyear := (n1 =? 3) && (negb (n4 =? 24) || (n100 =? 3)) in
    let month := Z.shiftr (n + 50) 5 in
    let preceding := nth (Z.to_nat month) DAYS_BEFORE_MONTH 0
                     + Z.b2z ((2 <? month) && leapyear) in
    if n <? preceding then
      let month := month - 1 in
      let preceding := preceding - (nth (Z.to_nat month) DAYS_IN_MONTH 0
                                    + Z.b2z ((month =? 2) && leapyear)) in
      (year, month, n - preceding + 1)
    else (year, month, n - preceding + 1).

Definition MINYEAR : Z := 1.
Definition MAXYEAR : Z := 9999.
Definition MAXORDINAL : Z := 3652059.

Definition valid_ymd (y m d : Z) : bool :=
  (MINYEAR <=? y) && (y <=? MAXYEAR) && (1 <=? m) && (m <=? 12)
  && (1 <=? d) && (d <=? days_in_month y m).

(** ** [date], [time] and [datetime] *)

(** A [date] is its ordinal ([date.toordinal()]). *)
Definition date := Z.

(** Microseconds in a day: [time.max] is the last of them. *)
Definition US_PER_DAY : Z := 86400000000.

Record datetime := mk_datetime {
  dt_ord : Z;   (** [self.toordinal()] *)
  dt_us : Z     (** microseconds since midnight: hour, minute, second, us *)
}.

Definition time_min : Z := 0.
Definition time_max : Z := US_PER_DAY - 1.

(** [datetime.combine(d, t)]. *)
Definition combine (d : date) (t : Z) : datetime := mk_datetime d t.

(** [dt.date()]. *)
Definition to_date (dt : datetime) : date := dt_ord dt.

(** The exception the subtraction can raise. *)
Inductive dt_error := OverflowError (msg : string).

(** [dt - timedelta(days=n)] for [n >= 0]: the time of day is kept and the
    ordinal must stay in [1, MAXORDINAL], else [OverflowError]. *)
Definition sub_days (dt : datetime) (n : Z) : dt_error + datetime :=
  let o := dt_ord dt - n in
  if (0 <? o) && (o <=? MAXORDINAL) then inr (mk_datetime o (dt_us dt))
  else inl (OverflowError "date value out of range").

(** A datetime the type can hold. *)
Definition valid_datetime (dt : datetime) : bool :=
  (1 <=? dt_ord dt) && (dt_ord dt <=? MAXORDINAL)
  && (0 <=? dt_us dt) && (dt_us dt <? US_PER_DAY).

(** ** [strftime('%Y%m%d')] *)

(** The year field [%Y] is printed on four digits, zero padded, and
    [%m], [%d] on two. *)
Definition strftime_Ymd (dt : datetime) : string :=
  let '(y, m, d) := ord2ymd (dt_ord dt) in
  (zpad 4 y ++ zpad 2 m ++ zpad 2 d)%string.

(** The number the eight digits spell. *)
Definition ymd_key (ymd : Z * Z * Z) : Z :=
  let '(y, m, d) := ymd in y * 10000 + m * 100 + d.

(** ** Periodicity: the calendar repeats every 400 years *)

Lemma DI400Y_value : DI400Y = 146097.
Proof. reflexivity. Qed.

Lemma is_leap_shift (y q : Z) : is_leap (y + 400 * q) = is_leap y.
Proof.
  unfold is_leap.
  replace (y + 400 * q) with (y + (100 * q) * 4) by ring.
  rewrite Z_mod_plus_full.
  replace (y + 100 * q * 4) with (y + (4 * q) * 100) by ring.
  rewrite Z_mod_plus_full.
  replace (y + 4 * q * 100) with (y + q * 400) by ring.
  rewrite Z_mod_plus_full. reflexivity.
Qed.

Lemma days_in_month_shift (y q m : Z) :
  days_in_month (y + 400 * q) m = days_in_month y m.
Proof. unfold days_in_month. rewrite is_leap_shift. reflexivity. Qed.

Lemma days_before_year_shift (y q : Z) :
  days_before_year (y + 400 * q) = days_before_year y + DI400Y * q.
Proof.
  rewrite DI400Y_value. unfold days_before_year.
  replace (y + 400 * q - 1) with (y - 1 + (100 * q) * 4) by ring.
  rewrite Z_div_plus_full by lia.
  replace (y - 1 + 100 * q * 4) with (y - 1 + (4 * q) * 100) by ring.
  rewrite Z_div_plus_full by lia.
  replace (y - 1 + 4 * q * 100) with (y - 1 + q * 400) by ring.
  rewrite Z_div_plus_full by lia. ring.
Qed.

Lemma ymd2ord_shift (y m d q : Z) :
  ymd2ord (y + 400 * q) m d = ymd2ord y m d + DI400Y * q.
Proof.
  unfold ymd2ord, days_before_month.
  rewrite days_before_year_shift, is_leap_shift. ring.
Qed.

Lemma ord2ymd_shift (n q : Z) :
  ord2ymd (n + DI400Y * q) =
  let '(y, m, d) := ord2ymd n in (y + 400 * q, m, d).
Proof.
  unfold ord2ymd.
  replace (n + DI400Y * q - 1) with (n - 1 + q * DI400Y) by ring.
  rewrite Z_div_plus_full, Z_mod_plus_full by (rewrite DI400Y_value; lia).
  cbv zeta.
  repeat match goal with |- context [if ?b then _ else _] => destruct b end;
    f_equal; f_equal; ring.
Qed.

(** ** One 400-year cycle, checked by evaluation *)

(** What [_ord2ymd] must give on ordinal [n]: a day of a real month that
    [_ymd2ord] maps back to [n]. *)
Definition ord_ok (n : Z) : bool :=
  let '(y, m, d) := ord2ymd n in
  (ymd2ord y m d =? n) && (1 <=? m) && (m <=? 12)
  && (1 <=? d) && (d <=? days_in_month y m).

(** [all_from P n k]: [P] holds on [n], [n+1], ..., [n+k-1]. *)
Fixpoint all_from (P : Z -> bool) (n : Z) (k : nat) : bool :=
  match k with
  | O => true
  | S k' => P n && all_from P (n + 1) k'
  end.

Lemma all_from_spec (P : Z -> bool) (k : nat) :
  forall n, all_from P n k = true ->
  forall x, n <= x < n + Z.of_nat k -> P x = true.
Proof.
  induction k as [|k IH]; simpl; intros n H x Hx; [lia|].
  apply andb_prop in H as [Hn Hrest].
  destruct (Z.eq_dec x n) as [->|Hne]; [exact Hn|].
  apply (IH (n + 1)); [exact Hrest | lia].
Qed.

Lemma cycle_ord_ok : all_from ord_ok 1 (Z.to_nat DI400Y) = true.
Proof. vm_compute. reflexivity. Qed.

(** Every ordinal is a shift of one in the first cycle. *)
Lemma ord_decompose (n : Z) :
  exists r q, 1 <= r <= DI400Y /\ n = r + DI400Y * q.
Proof.
  rewrite DI400Y_value.
  exists ((n - 1) mod 146097 + 1), ((n - 1) / 146097).
  pose proof (Z.mod_pos_bound (n - 1) 146097 ltac:(lia)).
  pose proof (Z.div_mod (n - 1) 146097 ltac:(lia)). lia.
Qed.

Lemma ord_ok_all (n : Z) : ord_ok n = true.
Proof.
  destruct (ord_decompose n) as (r & q & Hr & ->).
  pose proof (all_from_spec _ _ _ cycle_ord_ok r) as Hc.
  rewrite Z2Nat.id in Hc by (rewrite DI400Y_value; lia).
  specialize (Hc ltac:(lia)). unfold ord_ok in *.
  rewrite ord2ymd_shift. destruct (ord2ymd r) as [[y m] d].
  rewrite ymd2ord_shift, days_in_month_shift.
  rewrite !andb_true_iff, !Z.eqb_eq, !Z.leb_le in *. lia.
Qed.

(** The fields of [_ord2ymd n]: a month, a day of that month, and the
    ordinal back. *)
Lemma ord2ymd_fields (n : Z) :
  let '(y, m, d) := ord2ymd n in
  ymd2ord y m d = n /\ 1 <= m <= 12 /\ 1 <= d <= days_in_month y m.
Proof.
  pose proof (ord_ok_all n) as H. unfold ord_ok in H.
  destruct (ord2ymd n) as [[y m] d].
  rewrite !andb_true_iff, !Z.eqb_eq, !Z.leb_le in H. lia.
Qed.

(** ** Order: [_ymd2ord] is increasing in (year, month, day) *)

Lemma month_cases (m : Z) : 1 <= m <= 12 ->
  m = 1 \/ m = 2 \/ m = 3 \/ m = 4 \/ m = 5 \/ m = 6 \/ m = 7 \/ m = 8
  \/ m = 9 \/ m = 10 \/ m = 11 \/ m = 12.
Proof. lia. Qed.

(** Split a goal on the twelve months. *)
Ltac case_month Hm :=
  let H := fresh "Hmonth" in
  pose proof (month_cases _ Hm) as H;
  repeat (destruct H as [H|H]; [subst|]); subst.

Lemma days_in_month_bounds (y m : Z) :
  1 <= m <= 12 -> 28 <= days_in_month y m <= 31.
Proof.
  intros Hm. unfold days_in_month.
  case_month Hm; simpl; destruct (is_leap y); simpl; lia.
Qed.

Lemma days_before_month_bounds (y m : Z) :
  1 <= m <= 12 ->
  0 <= days_before_month y m /\
  days_before_month y m + days_in_month y m <= 365 + Z.b2z (is_leap y).
Proof.
  intros Hm. unfold days_before_month, days_in_month.
  case_month Hm; simpl; destruct (is_leap y); simpl; lia.
Qed.

Lemma days_before_month_mono (y m m' : Z) :
  1 <= m -> m < m' -> m' <= 12 ->
  days_before_month y m + days_in_month y m <= days_before_month y m'.
Proof.
  intros H1 H2 H3. unfold days_before_month, days_in_month.
  assert (Hm : 1 <= m <= 12) by lia. assert (Hm' : 1 <= m' <= 12) by lia.
  case_month Hm; case_month Hm'; try lia;
    simpl; destruct (is_leap y); simpl; lia.
Qed.

Lemma days_before_year_succ (y : Z) :
  days_before_year (y + 1) = days_before_year y + 365 + Z.b2z (is_leap y).
Proof.
  unfold days_before_year, is_leap. replace (y + 1 - 1) with y by ring.
  destruct (Z.eqb_spec (y mod 4) 0), (Z.eqb_spec (y mod 100) 0),
    (Z.eqb_spec (y mod 400) 0); simpl; Z.div_mod_to_equations; lia.
Qed.

Lemma days_before_year_mono (y y' : Z) :
  y <= y' -> days_before_year y <= days_before_year y'.
Proof. unfold days_before_year. intros. Z.div_mod_to_equations. lia. Qed.

(** The lexicographic order of (year, month, day) triples. *)
Definition ymd_lt (a b : Z * Z * Z) : Prop :=
  let '(y, m, d) := a in let '(y', m', d') := b in
  y < y' \/ (y = y' /\ (m < m' \/ (m = m' /\ d < d'))).

Lemma ymd2ord_lt (y m d y' m' d' : Z) :
  1 <= m <= 12 -> 1 <= d <= days_in_month y m -> 1 <= m' <= 12 -> 1 <= d' ->
  ymd_lt (y, m, d) (y', m', d') -> ymd2ord y m d < ymd2ord y' m' d'.
Proof.
  unfold ymd_lt, ymd2ord. intros Hm Hd Hm' Hd' Hlt.
  pose proof (days_before_month_bounds y m Hm).
  pose proof (days_before_month_bounds y' m' Hm').
  destruct Hlt as [Hy | [<- [Hmm | [<- Hdd]]]].
  - pose proof (days_before_year_succ y).
    pose proof (days_before_year_mono (y + 1) y' ltac:(lia)). lia.
  - pose proof (days_before_month_mono y m m'). lia.
  - lia.
Qed.

Lemma ymd_trichotomy (y m d y' m' d' : Z) :
  ymd_lt (y, m, d) (y', m', d') \/ (y, m, d) = (y', m', d')
  \/ ymd_lt (y', m', d') (y, m, d).
Proof.
  unfold ymd_lt.
  destruct (Z.lt_total y y') as [Hy|[<-|Hy]]; [left; lia| |right; right; lia].
  destruct (Z.lt_total m m') as [Hm|[<-|Hm]]; [left; lia| |right; right; lia].
  destruct (Z.lt_total d d') as [Hd|[<-|Hd]]; [left; lia|right; left; reflexivity|right; right; lia].
Qed.

(** [_ymd2ord] is one-to-one on real dates: equal ordinals, equal dates. *)
Lemma ymd2ord_inj (y m d y' m' d' : Z) :
  1 <= m <= 12 -> 1 <= d <= days_in_month y m ->
  1 <= m' <= 12 -> 1 <= d' <= days_in_month y' m' ->
  ymd2ord y m d = ymd2ord y' m' d' -> (y, m, d) = (y', m', d').
Proof.
  intros Hm Hd Hm' Hd' Heq.
  destruct (ymd_trichotomy y m d y' m' d') as [Hlt|[E|Hlt]]; [|exact E|].
  - pose proof (ymd2ord_lt _ _ _ _ _ _ Hm Hd Hm' (proj1 Hd') Hlt). lia.
  - pose proof (ymd2ord_lt _ _ _ _ _ _ Hm' Hd' Hm (proj1 Hd) Hlt). lia.
Qed.

(** The year [_ord2ymd] gives stays in [MINYEAR, MAXYEAR] on the ordinals
    of the datetime range. *)
Lemma ord2ymd_year_range (n : Z) :
  1 <= n <= MAXORDINAL -> let '(y, _, _) := ord2ymd n in 1 <= y <= 9999.
Proof.
  intros Hn. pose proof (ord2ymd_fields n) as F.
  destruct (ord2ymd n) as [[y m] d]. destruct F as (Hrt & Hm & Hd).
  split.
  - destruct (Z.lt_ge_cases y 1) as [Hy|Hy]; [|exact Hy].
    assert (ymd2ord y m d < ymd2ord 1 1 1).
    { apply ymd2ord_lt; try lia. unfold ymd_lt. lia. }
    change (ymd2ord 1 1 1) with 1 in *. lia.
  - destruct (Z.lt_ge_cases 9999 y) as [Hy|Hy]; [|exact Hy].
    assert (ymd2ord 9999 12 31 < ymd2ord y m d).
    { apply ymd2ord_lt; try lia. vm_compute. split; discriminate. unfold ymd_lt. lia. }
    change (ymd2ord 9999 12 31) with MAXORDINAL in *. lia.
Qed.

(** Ordering of the printed key follows the lexicographic date order. *)
Lemma ymd_key_lt (y m d y' m' d' : Z) :
  1 <= m <= 12 -> 1 <= d <= 31 -> 1 <= m' <= 12 -> 1 <= d' <= 31 ->
  ymd_lt (y, m, d) (y', m', d') -> ymd_key (y, m, d) < ymd_key (y', m', d').
Proof. unfold ymd_lt, ymd_key. lia. Qed.

(** ** The calendar theorems *)

(** C13: [_ord2ymd] then [_ymd2ord] is the identity on every real date:
    the conversion back from an ordinal recovers the (year, month, day) it
    was computed from. *)
Theorem ord2ymd_ymd2ord (y m d : Z) :
  1 <= m <= 12 -> 1 <= d <= days_in_month y m ->
  ord2ymd (ymd2ord y m d) = (y, m, d).
Proof.
  intros Hm Hd. pose proof (ord2ymd_fields (ymd2ord y m d)) as F.
  destruct (ord2ymd (ymd2ord y m d)) as [[y' m'] d'].
  destruct F as (Hrt & Hm' & Hd').
  symmetry. apply ymd2ord_inj; auto.
Qed.

(** C14: On every ordinal of Python's datetime range, [_ord2ymd] gives a
    valid date ([valid_ymd]: year 1..9999, a month, a day of that month)
    that [_ymd2ord] maps back to the same ordinal. *)
Theorem ord2ymd_valid (n : Z) :
  1 <= n <= MAXORDINAL ->
  let '(y, m, d) := ord2ymd n in valid_ymd y m d = true /\ ymd2ord y m d = n.
Proof.
  intros Hn. pose proof (ord2ymd_fields n) as F.
  pose proof (ord2ymd_year_range n Hn) as Y.
  destruct (ord2ymd n) as [[y m] d]. destruct F as (Hrt & Hm & Hd).
  split; [|exact Hrt]. unfold valid_ymd, MINYEAR, MAXYEAR.
  rewrite !andb_true_iff, !Z.leb_le. lia.
Qed.

(** The date key [YYYYMMDD] increases strictly with the ordinal. *)
Lemma ymd_key_mono (n1 n2 : Z) :
  n1 < n2 -> ymd_key (ord2ymd n1) < ymd_key (ord2ymd n2).
Proof.
  intros Hlt. pose proof (ord2ymd_fields n1) as F1. pose proof (ord2ymd_fields n2) as F2.
  destruct (ord2ymd n1) as [[y1 m1] d1], (ord2ymd n2) as [[y2 m2] d2].
  destruct F1 as (R1 & M1 & D1), F2 as (R2 & M2 & D2).
  pose proof (days_in_month_bounds y1 m1 M1). pose proof (days_in_month_bounds y2 m2 M2).
  destruct (ymd_trichotomy y1 m1 d1 y2 m2 d2) as [L|[E|L]].
  - apply ymd_key_lt; auto; lia.
  - inv E. lia.
  - pose proof (ymd2ord_lt _ _ _ _ _ _ M2 D2 M1 (proj1 D1) L). lia.
Qed.

(** [strftime('%Y%m%d')] always prints eight decimal digits. *)
Lemma strftime_Ymd_shape (dt : datetime) :
  String.length (strftime_Ymd dt) = 8%nat /\ all_digits (strftime_Ymd dt) = true.
Proof.
  unfold strftime_Ymd. destruct (ord2ymd (dt_ord dt)) as [[y m] d].
  split; [autorewrite with gdelt_rw; reflexivity|].
  rewrite !all_digits_app, !all_digits_zpad. reflexivity.
Qed.

(** [strftime('%Y%m%d')] on a datetime of the range spells its date key on
    eight digits. *)
Lemma strftime_Ymd_digits (dt : datetime) :
  1 <= dt_ord dt <= MAXORDINAL ->
  String.length (strftime_Ymd dt) = 8%nat /\
  parse_digits (strftime_Ymd dt) = Some (ymd_key (ord2ymd (dt_ord dt))).
Proof.
  intros Hn. pose proof (ord2ymd_fields (dt_ord dt)) as F.
  pose proof (ord2ymd_year_range (dt_ord dt) Hn) as Y.
  unfold strftime_Ymd. destruct (ord2ymd (dt_ord dt)) as [[y m] d].
  destruct F as (_ & Hm & Hd). pose proof (days_in_month_bounds y m Hm).
  split; [autorewrite with gdelt_rw; reflexivity|].
  unfold parse_digits.
  do 2 (rewrite parse_digits_acc_app, parse_digits_acc_zpad by (simpl; lia);
        cbv beta iota).
  rewrite parse_digits_acc_zpad by (simpl; lia).
  f_equal. simpl. lia.
Qed.

(** C11: The [DATE>] / [DATE<] tokens compare like the dates: for two
    datetimes of the range, an earlier day prints an eight-digit
    [YYYYMMDD] string of smaller value, and the same day the same
    string whatever the time of day. *)
Theorem strftime_Ymd_order (dt1 dt2 : datetime) :
  1 <= dt_ord dt1 <= MAXORDINAL -> 1 <= dt_ord dt2 <= MAXORDINAL ->
  String.length (strftime_Ymd dt1) = 8%nat /\
  (dt_ord dt1 = dt_ord dt2 -> strftime_Ymd dt1 = strftime_Ymd dt2) /\
  (dt_ord dt1 < dt_ord dt2 ->
   exists k1 k2, parse_digits (strftime_Ymd dt1) = Some k1 /\
                 parse_digits (strftime_Ymd dt2) = Some k2 /\ k1 < k2).
Proof.
  intros H1 H2.
  destruct (strftime_Ymd_digits dt1 H1) as [L1 P1].
  destruct (strftime_Ymd_digits dt2 H2) as [_ P2].
  split; [exact L1|split].
  - intros E. unfold strftime_Ymd. rewrite E. reflexivity.
  - intros Hlt. exists (ymd_key (ord2ymd (dt_ord dt1))), (ymd_key (ord2ymd (dt_ord dt2))).
    split; [exact P1|split; [exact P2|apply ymd_key_mono; exact Hlt]].
Qed.

(** [dt - timedelta(days=n)] with fewer days than the ordinal: the same
    time of day [n] days earlier, a datetime of the range again. *)
Lemma sub_days_ok (dt : datetime) (n : Z) :
  valid_datetime dt = true -> 0 <= n < dt_ord dt ->
  sub_days dt n = inr (mk_datetime (dt_ord dt - n) (dt_us dt)) /\
  valid_datetime (mk_datetime (dt_ord dt - n) (dt_us dt)) = true.
Proof.
  unfold valid_datetime, sub_days. simpl.
  rewrite !andb_true_iff, !Z.leb_le, !Z.ltb_lt. intros V Hn.
  destruct (Z.ltb_spec 0 (dt_ord dt - n)), (Z.leb_spec (dt_ord dt - n) MAXORDINAL);
    simpl; try lia. split; [reflexivity|lia].
Qed.

(** ... and with at least as many days, [OverflowError]. *)
Lemma sub_days_overflow (dt : datetime) (n : Z) :
  dt_ord dt <= n -> sub_days dt n = inl (OverflowError "date value out of range").
Proof.
  intros H. unfold sub_days. destruct (Z.ltb_spec 0 (dt_ord dt - n)); simpl; [lia|reflexivity].
Qed.

(** ** Witnesses *)

Lemma ord2ymd_ymd2ord_witness : ord2ymd (ymd2ord 2024 2 29) = (2024, 2, 29).
Proof. apply ord2ymd_ymd2ord; [lia | unfold days_in_month; simpl; lia]. Defined.

Lemma ord2ymd_valid_witness :
  let '(y, m, d) := ord2ymd 738886 in valid_ymd y m d = true /\ ymd2ord y m d = 738886.
Proof. apply ord2ymd_valid. unfold MAXORDINAL. lia. Defined.

Lemma strftime_Ymd_order_witness :
  String.length (strftime_Ymd (mk_datetime 738886 5)) = 8%nat /\
  (738886 = 738977 -> strftime_Ymd (mk_datetime 738886 5) = strftime_Ymd (mk_datetime 738977 0)) /\
  (738886 < 738977 ->
   exists k1 k2, parse_digits (strftime_Ymd (mk_datetime 738886 5)) = Some k1 /\
                 parse_digits (strftime_Ymd (mk_datetime 738977 0)) = Some k2 /\ k1 < k2).
Proof.
  apply (strftime_Ymd_order (mk_datetime 738886 5) (mk_datetime 738977 0));
    unfold MAXORDINAL; simpl; lia.
Defined.

