(* ===== verification/Frame.v ===== *)
(** * Frame: the pandas DataFrame operations of app.py (lines 89-114)

    The fetched table [uk_events] is a pandas [DataFrame]: an index of
    [nrows] rows and an ordered list of named columns.  The script asks for
    [uk_events.empty] (line 91) and [len(uk_events)] (line 94).  It selects
    nine columns with [uk_events[display_columns]] (line 98), which raises
    [KeyError] when one is missing.  It renames them with
    [.rename(columns=...)] (lines 98-108) and reads one column back with
    [uk_events_display['Event Root Code']] (line 114).

    Cells are strings, integers or the missing value [NaN].  The float
    columns ([GoldsteinScale], [AvgTone]) are carried as [CNum]: the script
    never computes with them, it only moves them.  The frames the theorems
    speak of have distinct column names ([wf_frame]), as GDELT's event
    table has; pandas allows duplicate labels, which the script never
    builds. *)

From Stdlib Require Import String List ZArith Lia Bool.
From S2P Require Import Prelude.
Import ListNotations.
Open Scope string_scope.

(** ** Cells and frames *)

Inductive cell :=
| CStr (s : string)
| CNum (z : Z)
| CNaN.

Definition cell_eqb (a b : cell) : bool :=
  match a, b with
  | CStr s, CStr t => String.eqb s t
  | CNum x, CNum y => Z.eqb x y
  | CNaN, CNaN => true
  | _, _ => false
  end.

(** [pd.isna] on a cell. *)
Definition cell_isnull (c : cell) : bool :=
  match c with CNaN => true | _ => false end.

Record frame := mk_frame {
  nrows : nat;                          (** [len(df.index)] *)
  columns : list (string * list cell)   (** [df.columns] with their data *)
}.

Definition col_names (f : frame) : list string := map fst (columns f).

(** A frame as pandas builds it from a result set: one value per row in
    every column, and distinct column labels. *)
Definition wf_frame (f : frame) : Prop :=
  NoDup (col_names f) /\ Forall (fun c => length (snd c) = nrows f) (columns f).

(** The one exception these operations raise. *)
Inductive frame_error := KeyError (missing : list string).

(** ** Operations *)

(** [df.empty]: true when either axis has length zero. *)
Definition empty (f : frame) : bool :=
  (nrows f =? 0)%nat || match columns f with [] => true | _ => false end.

(** [len(df)]: the number of rows. *)
Definition len (f : frame) : nat := nrows f.

Definition has_col (f : frame) (k : string) : bool :=
  existsb (fun c => String.eqb (fst c) k) (columns f).

(** The data of column [k] (its first occurrence). *)
Definition col_data (f : frame) (k : string) : list cell :=
  match find (fun c => String.eqb (fst c) k) (columns f) with
  | Some c => snd c
  | None => []
  end.

(** [df[keys]] with a list of labels: [KeyError] naming the labels that are
    not columns, else a frame with exactly those columns in the order of
    [keys]. *)
Definition getitem_cols (f : frame) (keys : list string) : frame_error + frame :=
  match filter (fun k => negb (has_col f k)) keys with
  | [] => inr (mk_frame (nrows f) (map (fun k => (k, col_data f k)) keys))
  | missing => inl (KeyError missing)
  end.

(** [df[k]] with one label: the column, or [KeyError]. *)
Definition getitem_col (f : frame) (k : string) : frame_error + list cell :=
  if has_col f k then inr (col_data f k) else inl (KeyError [k]).

(** A Python dict from labels to labels, as an association list. *)
Fixpoint dict_get (m : list (string * string)) (k : string) : option string :=
  match m with
  | [] => None
  | (a, b) :: rest => if String.eqb a k then Some b else dict_get rest k
  end.

(** [df.rename(columns=mapping)]: each label found in [mapping] is
    replaced, the others kept; missing keys are ignored. *)
Definition rename (f : frame) (mapping : list (string * string)) : frame :=
  mk_frame (nrows f)
    (map (fun c => (match dict_get mapping (fst c) with
                    | Some b => b
                    | None => fst c
                    end, snd c)) (columns f)).

(** ** Lemmas *)

Lemma cell_eqb_spec (a b : cell) : reflect (a = b) (cell_eqb a b).
Proof.
  destruct a, b; simpl; try (constructor; discriminate).
  - destruct (String.eqb_spec s s0); constructor; congruence.
  - destruct (Z.eqb_spec z z0); constructor; congruence.
  - constructor; reflexivity.
Qed.

Lemma has_col_In (f : frame) (k : string) :
  has_col f k = true <-> In k (col_names f).
Proof.
  unfold has_col, col_names. rewrite existsb_exists, in_map_iff.
  split; intros [c [H1 H2]]; exists c; split; try assumption.
  - apply String.eqb_eq in H2. exact H2.
  - apply String.eqb_eq. exact H1.
Qed.

(** Under [wf_frame], a present column has one cell per row. *)
Lemma col_data_length (f : frame) (k : string) :
  wf_frame f -> has_col f k = true -> length (col_data f k) = nrows f.
Proof.
  intros [_ Hlen] Hk. unfold col_data, has_col in *.
  destruct (find (fun c => String.eqb (fst c) k) (columns f)) as [c|] eqn:E.
  - apply find_some in E as [Hin _]. rewrite Forall_forall in Hlen. exact (Hlen c Hin).
  - apply existsb_exists in Hk as [c [Hin Hc]].
    pose proof (find_none _ _ E c Hin). congruence.
Qed.

(** Looking a label up among columns built from a list of labels. *)
Lemma find_mapped_key (h : string -> list cell) (keys : list string) (k : string) :
  In k keys ->
  find (fun c => String.eqb (fst c) k) (map (fun k' => (k', h k')) keys) = Some (k, h k).
Proof.
  induction keys as [|a keys IH]; simpl; [tauto|].
  intros [<-|Hin]; [rewrite String.eqb_refl; reflexivity|].
  destruct (String.eqb_spec a k) as [<-|_]; [reflexivity|auto].
Qed.

Lemma col_names_getitem (f : frame) (keys : list string) :
  col_names (mk_frame (nrows f) (map (fun k => (k, col_data f k)) keys)) = keys.
Proof.
  unfold col_names. simpl. rewrite map_map. simpl. apply map_id.
Qed.

(** [df[keys]] raises [KeyError] exactly on the labels that are not columns,
    in the order of [keys]. *)
Lemma getitem_cols_error (f : frame) (keys missing : list string) :
  getitem_cols f keys = inl (KeyError missing) <->
  missing <> [] /\ missing = filter (fun k => negb (has_col f k)) keys.
Proof.
  unfold getitem_cols.
  destruct (filter (fun k => negb (has_col f k)) keys) as [|m ms]; split.
  - discriminate.
  - intros [H E]. exfalso. exact (H E).
  - intros H. inv H. split; [discriminate|reflexivity].
  - intros [_ ->]. reflexivity.
Qed.

(** The frame [df[keys]] builds from a well-formed frame is well formed
    when the labels are distinct columns. *)
Lemma getitem_cols_wf (f : frame) (keys : list string) :
  wf_frame f -> NoDup keys -> Forall (fun k => has_col f k = true) keys ->
  wf_frame (mk_frame (nrows f) (map (fun k => (k, col_data f k)) keys)).
Proof.
  intros Hwf Hnd Hall. split; [rewrite col_names_getitem; exact Hnd|].
  simpl. rewrite Forall_forall. intros c Hc.
  apply in_map_iff in Hc as [k [<- Hk]]. simpl.
  rewrite Forall_forall in Hall. apply col_data_length; auto.
Qed.

(** C16: The success branch of [df[keys]]: when every label is a column of a
    well-formed frame, the selection keeps the rows, has exactly the
    columns [keys] in order with their data, and is well formed again. *)
Lemma getitem_cols_ok (f : frame) (keys : list string) :
  wf_frame f -> NoDup keys -> Forall (fun k => has_col f k = true) keys ->
  exists g, getitem_cols f keys = inr g /\ wf_frame g /\ nrows g = nrows f
         /\ col_names g = keys /\ (forall k, In k keys -> col_data g k = col_data f k).
Proof.
  intros Hwf Hnd Hall. unfold getitem_cols.
  rewrite (filter_negb_all _ _ Hall).
  eexists; split; [reflexivity|].
  split; [|split; [reflexivity|split; [apply col_names_getitem|]]].
  - apply getitem_cols_wf; assumption.
  - intros k Hk. unfold col_data at 1. simpl.
    rewrite find_mapped_key by exact Hk. reflexivity.
Qed.

(** [rename] keeps the rows and every column's data, and maps each label
    through the dictionary. *)
Lemma rename_spec (f : frame) (mapping : list (string * string)) :
  nrows (rename f mapping) = nrows f /\
  map snd (columns (rename f mapping)) = map snd (columns f) /\
  col_names (rename f mapping) =
  map (fun k : string => match dict_get mapping k with Some b => b | None => k end)
    (col_names f).
Proof.
  unfold rename, col_names. simpl. rewrite !map_map. simpl. auto.
Qed.

(** The label [rename] gives a column. *)
Definition renamed (mapping : list (string * string)) (k : string) : string :=
  match dict_get mapping k with Some b => b | None => k end.

(** [rename] preserves well-formedness when it does not merge two
    labels. *)
Lemma rename_wf (f : frame) (mapping : list (string * string)) :
  wf_frame f -> NoDup (map (renamed mapping) (col_names f)) -> wf_frame (rename f mapping).
Proof.
  intros [_ Hlen] Hnd. split.
  - unfold col_names, rename in *. simpl. rewrite map_map in *. exact Hnd.
  - unfold rename. simpl. rewrite Forall_map. simpl. exact Hlen.
Qed.

(** ** Witnesses *)

Definition sample_frame : frame :=
  mk_frame 2 [("A", [CStr "x"; CNum 1]); ("B", [CNaN; CStr "y"])].

Lemma getitem_cols_ok_witness :
  exists g, getitem_cols sample_frame ["B"; "A"] = inr g /\ wf_frame g /\
    nrows g = nrows sample_frame /\ col_names g = ["B"; "A"] /\
    (forall k, In k ["B"; "A"] -> col_data g k = col_data sample_frame k).
Proof.
  apply getitem_cols_ok.
  - split; [repeat constructor; simpl; intuition discriminate | repeat constructor].
  - repeat constructor; simpl; intuition discriminate.
  - repeat constructor.
Defined.
