(* ===== verification/ValueCounts.v ===== *)
(** * ValueCounts: [Series.value_counts()] (app.py line 114)

    pandas counts the values of a Series in one pass over a hash table,
    keyed by first occurrence, and skips the missing values ([dropna=True]).
    It then sorts the counts in decreasing order ([sort=True]).  [tally] is
    that pass, over a list kept in first-occurrence order.  [value_counts]
    sorts it with MathComp's stable merge sort.  pandas does not promise
    the order of equal counts, so the theorems below hold whatever that
    order is.  Only the stability-based tie order is this model's choice.

    The reference definition [counts_ref] counts each distinct non-missing
    value with [count_mem].  [tally_counts_ref] shows the one-pass tally
    computes it.  The result theorems show that the counts are sorted,
    each is the number of occurrences of its value, every value appears
    once, and the counts add up to the number of non-missing cells.

    This file loads MathComp and the Section is generic in an [eqType];
    [value_counts_cells] instantiates it at the pandas cells of [Frame]. *)

From HB Require Import structures.
From mathcomp Require Import ssreflect ssrfun ssrbool eqtype ssrnat seq path bigop.
From S2P Require Import Frame.

Set Warnings "-rewrite-rw".
Set Implicit Arguments.
Unset Strict Implicit.
Unset Printing Implicit Defensive.

Section ValueCounts.

Variable T : eqType.
(** [pd.isna]: the values [value_counts] drops. *)
Variable isnull : pred T.

(** Adding one occurrence of [x] to the table. *)
Fixpoint tally_add (x : T) (acc : seq (T * nat)) : seq (T * nat) :=
  if acc is (y, n) :: rest then
    if y == x then (y, n.+1) :: rest else (y, n) :: tally_add x rest
  else [:: (x, 1)].

Definition tally_step (acc : seq (T * nat)) (x : T) : seq (T * nat) :=
  if isnull x then acc else tally_add x acc.

(** The hash-table pass: counts in first-occurrence order. *)
Definition tally (s : seq T) : seq (T * nat) := foldl tally_step [::] s.

(** Decreasing count. *)
Definition by_count_desc : rel (T * nat) := fun a b => b.2 <= a.2.

Definition value_counts (s : seq T) : seq (T * nat) := sort by_count_desc (tally s).

(** ** The reference definition *)

(** The distinct values of [s] in the order they first appear. *)
Definition first_occurrences (s : seq T) : seq T := rev (undup (rev s)).

Definition counts_ref (s : seq T) : seq (T * nat) :=
  [seq (y, count_mem y s) | y <- first_occurrences [seq x <- s | ~~ isnull x]].

(** ** Lemmas *)

Lemma first_occurrences_uniq (s : seq T) : uniq (first_occurrences s).
Proof. by rewrite /first_occurrences rev_uniq undup_uniq. Qed.

Lemma mem_first_occurrences (s : seq T) : first_occurrences s =i s.
Proof. by move=> y; rewrite /first_occurrences mem_rev mem_undup mem_rev. Qed.

Lemma first_occurrences_rcons (s : seq T) (x : T) :
  first_occurrences (rcons s x) =
  if x \in s then first_occurrences s else rcons (first_occurrences s) x.
Proof.
  rewrite /first_occurrences rev_rcons /= mem_rev.
  by case: (x \in s) => //; rewrite rev_cons.
Qed.

Lemma count_mem_rcons (s : seq T) (x y : T) :
  count_mem y (rcons s x) = count_mem y s + (x == y).
Proof. by rewrite -cats1 count_cat /= addn0. Qed.

(** Adding a value already in the table bumps its count. *)
Lemma tally_add_in (x : T) (D : seq T) (f : T -> nat) :
  uniq D -> x \in D ->
  tally_add x [seq (y, f y) | y <- D] = [seq (y, f y + (y == x)) | y <- D].
Proof.
  elim: D => [|y D IH] //= /andP [yD uD]; rewrite inE => /predU1P [->|xD].
  - rewrite eqxx addn1; congr cons. apply/eq_in_map => z zD /=.
    have -> : (z == y) = false by apply/eqP => E; move: yD; rewrite -E zD.
    by rewrite addn0.
  - case: eqP => [E|_]; first by move: yD; rewrite E xD.
    by rewrite addn0 (IH uD xD).
Qed.

(** Adding a new value appends it with count 1. *)
Lemma tally_add_notin (x : T) (D : seq T) (f : T -> nat) :
  x \notin D ->
  tally_add x [seq (y, f y) | y <- D] = rcons [seq (y, f y) | y <- D] (x, 1).
Proof.
  elim: D => [|y D IH] //=; rewrite inE negb_or => /andP [xy xD].
  by rewrite eq_sym (negbTE xy) IH.
Qed.

(** One more value read: the reference table moves as the pass does. *)
Lemma counts_ref_rcons (p : seq T) (x : T) :
  counts_ref (rcons p x) = tally_step (counts_ref p) x.
Proof.
  rewrite /counts_ref /tally_step filter_rcons.
  set L := [seq z <- p | ~~ isnull z].
  have HL : forall y, y \in first_occurrences L -> ~~ isnull y /\ y \in p.
    by move=> y; rewrite mem_first_occurrences mem_filter => /andP [].
  have Hne : forall y, y \in first_occurrences L -> isnull x -> (x == y) = false.
    move=> y /HL [ny _] nx; apply/eqP => E; move: ny; by rewrite -E nx.
  case nx: (isnull x) => /=.
  - apply/eq_in_map => y yD /=. by rewrite count_mem_rcons (Hne y yD nx) addn0.
  - rewrite first_occurrences_rcons.
    case xL: (x \in L).
    + have xD : x \in first_occurrences L by rewrite mem_first_occurrences.
      rewrite (tally_add_in _ (first_occurrences_uniq L) xD).
      apply/eq_in_map => y _ /=. by rewrite count_mem_rcons eq_sym.
    + have xD : x \notin first_occurrences L by rewrite mem_first_occurrences xL.
      rewrite (tally_add_notin _ xD).
      rewrite map_rcons count_mem_rcons eqxx.
      have -> : count_mem x p = 0.
        apply/eqP; rewrite -leqn0 leqNgt -has_count has_pred1.
        by move: xL; rewrite mem_filter nx /= => ->.
      congr rcons. apply/eq_in_map => y yD /=. rewrite count_mem_rcons.
      have -> : (x == y) = false.
        by apply/eqP => E; move: yD; rewrite -E mem_first_occurrences xL.
      by rewrite addn0.
Qed.

Lemma foldl_tally_step (p s : seq T) :
  foldl tally_step (counts_ref p) s = counts_ref (p ++ s).
Proof.
  elim: s p => [|x s IH] p /=; first by rewrite cats0.
  by rewrite -counts_ref_rcons IH cat_rcons.
Qed.

(** The sum of a table's counts. *)
Definition total_count (acc : seq (T * nat)) : nat := \sum_(a <- acc) a.2.

Lemma total_count_tally_add (x : T) (acc : seq (T * nat)) :
  total_count (tally_add x acc) = (total_count acc).+1.
Proof.
  rewrite /total_count; elim: acc => [|[y n] acc IH] /=.
    by rewrite big_cons !big_nil.
  case: (y == x); rewrite !big_cons /= ?IH; by rewrite ?addSn ?addnS.
Qed.

Lemma total_count_foldl (acc : seq (T * nat)) (s : seq T) :
  total_count (foldl tally_step acc s) = total_count acc + count (predC isnull) s.
Proof.
  elim: s acc => [|x s IH] acc /=; first by rewrite addn0.
  rewrite IH /tally_step. case: (isnull x) => /=; first by rewrite add0n.
  by rewrite total_count_tally_add add1n addSn addnS.
Qed.

Lemma by_count_desc_total : total by_count_desc.
Proof. move=> a b; exact: leq_total. Qed.

(** Equivalence of the one-pass hash-table tally with the reference
    definition: it lists each distinct non-missing value once, in the
    order of first occurrence, with its number of occurrences. *)
Theorem tally_counts_ref (s : seq T) : tally s = counts_ref s.
Proof.
  transitivity (counts_ref ([::] ++ s)); last by [].
  by rewrite -foldl_tally_step.
Qed.

Lemma value_counts_perm (s : seq T) : perm_eq (value_counts s) (counts_ref s).
Proof.
  rewrite /value_counts perm_sort /tally (_ : [::] = counts_ref [::]) //.
  by rewrite foldl_tally_step.
Qed.

(** C12: [value_counts] is sorted by decreasing count and is the reference
    table up to the order of equal counts.  Each of its entries is a
    non-missing value of the column with its number of occurrences
    (at least one).  Each non-missing value of the column has exactly one
    entry. *)
Theorem value_counts_correct (s : seq T) :
  sorted by_count_desc (value_counts s) /\
  perm_eq (value_counts s) (counts_ref s) /\
  (forall y n, (y, n) \in value_counts s ->
     n = count_mem y s /\ 0 < n /\ ~~ isnull y) /\
  uniq [seq a.1 | a <- value_counts s] /\
  (forall y, (y \in [seq a.1 | a <- value_counts s]) = (y \in s) && ~~ isnull y).
Proof.
  have P := value_counts_perm s.
  have Pk : perm_eq [seq a.1 | a <- value_counts s]
                    (first_occurrences [seq x <- s | ~~ isnull x]).
    have <- : [seq a.1 | a <- counts_ref s] = first_occurrences [seq x <- s | ~~ isnull x].
      by rewrite /counts_ref; elim: (first_occurrences _) => //= y D ->.
    exact: perm_map.
  split; first exact: (sort_sorted by_count_desc_total).
  split; first exact: P.
  split.
    move=> y n; rewrite (perm_mem P) => /mapP [z].
    rewrite mem_first_occurrences mem_filter => /andP [nz zs] [-> ->].
    by rewrite -has_count has_pred1 zs nz.
  split; first by rewrite (perm_uniq Pk) first_occurrences_uniq.
  by move=> y; rewrite (perm_mem Pk) mem_first_occurrences mem_filter andbC.
Qed.

(** The counts [value_counts] reports add up to the number of
    non-missing cells of the column. *)
Lemma value_counts_total (s : seq T) :
  total_count (value_counts s) = count (predC isnull) s.
Proof.
  rewrite /total_count /value_counts (perm_big _ (permEl (perm_sort _ _))).
  by rewrite -/(total_count (tally s)) /tally total_count_foldl /total_count big_nil add0n.
Qed.

End ValueCounts.

(** ** At the cells of a pandas column *)

HB.instance Definition _ := hasDecEq.Build cell cell_eqb_spec.

(** [series.value_counts()] on a column of [Frame] cells, [NaN] dropped. *)
Definition value_counts_cells (col : list cell) : list (cell * nat) :=
  value_counts cell_isnull col.

(** The counts [series.value_counts()] reports for a column add up to
    its number of non-missing cells, counted with [List.filter]. *)
Lemma value_counts_cells_total (col : list cell) :
  total_count (value_counts_cells col) =
  List.length (List.filter (fun c => negb (cell_isnull c)) col).
Proof.
  rewrite /value_counts_cells value_counts_total.
  by elim: col => [|c col IH] //=; case: (cell_isnull c) => /=; rewrite IH.
Qed.
