(* ===== verification/Widgets.v ===== *)
(** * Widgets: the Streamlit calls of app.py and what a run puts on the page

    A run of the script is a [Script elem exn] computation ([M] below): it
    appends page elements ([elem]) in program order and may stop with a
    Python exception ([exn]).  The widgets read the state Streamlit keeps
    between reruns ([widget_state]): the option the user picked in each
    selectbox and the day picked in each date picker, or nothing while the
    widget still shows its default.

    [selectbox(label, options, index)] (lines 14, 41, 58) raises
    [StreamlitAPIException] when [index] is not a position of [options],
    and otherwise returns the picked option or [options[index]].
    [date_input(label, value)] (lines 26-27) returns the picked day or the
    day of [value]. *)

From Stdlib Require Import String List ZArith Lia Bool.
From S2P Require Import Prelude Calendar Frame.
Import ListNotations.
Open Scope string_scope.
Open Scope gdelt_scope.

(** ** What a run shows *)

Inductive elem :=
| SidebarHeader (text : string)                   (** [st.sidebar.header] *)
| SidebarSelectbox (label value : string)         (** [st.sidebar.selectbox] *)
| SidebarDateInput (label : string) (value : date) (** [st.sidebar.date_input] *)
| Title (text : string)                           (** [st.title] *)
| Write (text : string)                           (** [st.write] *)
| Info (text : string)                            (** [st.info] *)
| Warning (text : string)                         (** [st.warning] *)
| Success (text : string)                         (** [st.success] *)
| Error (text : string)                           (** [st.error] *)
| DataFrameView (f : frame)                       (** [st.dataframe] *)
| Subheader (text : string)                       (** [st.subheader] *)
| BarChart (counts : list (cell * nat)).          (** [st.bar_chart] *)

(** ** The exceptions a run can raise *)

Inductive exn :=
| ExnDate (e : dt_error)            (** [OverflowError] of datetime arithmetic *)
| ExnFrame (e : frame_error)        (** [KeyError] of pandas indexing *)
| ExnSearch (msg : string)          (** whatever [gdelt_conn.Search] raises *)
| ExnStreamlit (msg : string).      (** [StreamlitAPIException] *)

(** [str(e)], as the f-string of line 119 prints it.  The messages of the
    libraries' exceptions are kept abstract: a [KeyError] shows its missing
    labels. *)
Definition exn_str (e : exn) : string :=
  match e with
  | ExnDate (OverflowError m) => m
  | ExnFrame (KeyError ms) => join ", " ms ++ " not in index"
  | ExnSearch m => m
  | ExnStreamlit m => m
  end.

Definition M (A : Type) : Type := Script elem exn A.

(** Library results lifted into a run. *)
Definition lift_dt {A} (r : dt_error + A) : M A :=
  match r with inl e => raise (ExnDate e) | inr a => sret a end.

Definition lift_frame {A} (r : frame_error + A) : M A :=
  match r with inl e => raise (ExnFrame e) | inr a => sret a end.

(** ** Widget state kept between reruns *)

Record widget_state := mk_widget_state {
  ws_time_span : option nat;   (** picked index of "Time Span" *)
  ws_start : option date;      (** picked day of "Start Date" *)
  ws_end : option date;        (** picked day of "End Date" *)
  ws_region : option nat;      (** picked index of "Region" *)
  ws_event : option nat        (** picked index of "Event Type" *)
}.

(** The state of a fresh session: every widget shows its default. *)
Definition fresh_state : widget_state := mk_widget_state None None None None None.

(** ** Widgets *)

Definition selectbox (label : string) (options : list string) (index : nat)
  (picked : option nat) : M string :=
  if negb (index <? length options)%nat then
    raise (ExnStreamlit "Selectbox index must be greater than or equal to 0 and less than the length of options.")
  else
    match nth_error options (match picked with Some i => i | None => index end) with
    | Some v => emit (SidebarSelectbox label v) ;;; sret v
    | None => raise (ExnStreamlit "Selectbox index out of range")
    end.

Definition date_input (label : string) (value : datetime) (picked : option date)
  : M date :=
  let d := match picked with Some d => d | None => to_date value end in
  emit (SidebarDateInput label d) ;;; sret d.

(** ** Lemmas *)

(** A picked index is one the widget can show. *)
Definition pick_ok (options : list string) (picked : option nat) : Prop :=
  match picked with Some i => (i < length options)%nat | None => True end.

(** With a default index in range and a picked index the widget can show,
    [selectbox] shows and returns an option of the list. *)
Lemma selectbox_ok (label : string) (options : list string) (index : nat)
  (picked : option nat) :
  (index < length options)%nat -> pick_ok options picked ->
  exists v, In v options /\
    selectbox label options index picked = ([SidebarSelectbox label v], inr v).
Proof.
  intros Hi Hp. unfold selectbox.
  destruct (Nat.ltb_spec index (length options)) as [_|]; [simpl|lia].
  set (i := match picked with Some i => i | None => index end).
  assert (Hil : (i < length options)%nat) by (subst i; destruct picked; simpl in *; auto).
  destruct (nth_error options i) as [v|] eqn:E.
  - exists v. split; [exact (nth_error_In _ _ E)|reflexivity].
  - apply nth_error_None in E. lia.
Qed.

(** Whatever happens, a value [selectbox] returns is one of its options. *)
Lemma selectbox_member (label : string) (options : list string) (index : nat)
  (picked : option nat) (v : string) :
  outcome (selectbox label options index picked) = inr v -> In v options.
Proof.
  unfold selectbox. destruct (negb (index <? length options)%nat); [discriminate|].
  destruct (nth_error _ _) as [w|] eqn:E; simpl; [|discriminate].
  intros H. inv H. exact (nth_error_In _ _ E).
Qed.
