(* ===== verification/Filters.v ===== *)
(** * Filters: the sidebar selections resolved into a date window and clauses

    Lines 9-68 of app.py.  The time-span chain (lines 13-36) reads the
    "Time Span" selectbox and computes [start_date] and [end_date] from
    [datetime.now()].  It reads the two date pickers only for
    "Custom Date Range".  It then formats both dates with
    [strftime('%Y%m%d')].  The region chain (lines 40-53) and the
    event-type chain (lines 57-68) map the selected label to a filter
    string.  Each chain is written as the [if]/[elif] cascade of the
    source, comparing strings with [==].

    The theorems give each chain's result on every option it offers, show
    that the fallback branch of lines 34-36 is never taken, and give the
    run of lines 13-36 on a custom range, which never compares the start
    day with the end day. *)

From Stdlib Require Import String List ZArith Lia Bool.
From S2P Require Import Prelude Calendar Frame Widgets.
Import ListNotations.
Open Scope string_scope.
Open Scope gdelt_scope.

(** ** Time span (lines 13-36) *)

Definition time_span_options : list string :=
  ["Last Month"; "Last 3 Months"; "Last 6 Months"; "Custom Date Range"].

(** Lines 16-29: [(start_date, end_date)], [start_date] left [None] by a
    label none of the branches names. *)
Definition resolve_time_span (now : datetime) (selected_time_span : string)
  (ws : widget_state) : M (option datetime * datetime) :=
  let end_date := now in
  if selected_time_span =? "Last Month" then
    s <- lift_dt (sub_days end_date 30) ;; sret (Some s, end_date)
  else if selected_time_span =? "Last 3 Months" then
    s <- lift_dt (sub_days end_date 90) ;; sret (Some s, end_date)
  else if selected_time_span =? "Last 6 Months" then
    s <- lift_dt (sub_days end_date 180) ;; sret (Some s, end_date)
  else if selected_time_span =? "Custom Date Range" then
    d90 <- lift_dt (sub_days end_date 90) ;;
    start_date_input <- date_input "Start Date" d90 (ws_start ws) ;;
    end_date_input <- date_input "End Date" end_date (ws_end ws) ;;
    sret (Some (combine start_date_input time_min),
          combine end_date_input time_max)
  else sret (None, end_date).

(** Lines 31-36: [if start_date:] (a datetime is always truthy, [None]
    never is), else the 90-day default window. *)
Definition date_strs (start_date : option datetime) (end_date : datetime)
  : M (string * string) :=
  match start_date with
  | Some s => sret (strftime_Ymd s, strftime_Ymd end_date)
  | None =>
      d <- lift_dt (sub_days end_date 90) ;;
      sret (strftime_Ymd d, strftime_Ymd end_date)
  end.

(** Lines 13-36 in order: the selectbox (default index 1), the chain,
    the formatting. *)
Definition time_span_filter (now : datetime) (ws : widget_state)
  : M (string * (string * string)) :=
  selected_time_span <- selectbox "Time Span" time_span_options 1 (ws_time_span ws) ;;
  dates <- resolve_time_span now selected_time_span ws ;;
  strs <- date_strs (fst dates) (snd dates) ;;
  sret (selected_time_span, strs).

(** ** Region (lines 40-53) *)

Definition region_options : list string :=
  ["United Kingdom"; "England"; "Scotland"; "Wales"; "Northern Ireland"].

(** Line 42: assigned and never read again. *)
Definition country_code : string := "UK".

Definition region_filter_of (selected_region : string) : string :=
  if selected_region =? "England" then "Region:England"
  else if selected_region =? "Scotland" then "Region:Scotland"
  else if selected_region =? "Wales" then "Region:Wales"
  else if selected_region =? "Northern Ireland" then "Region:Northern Ireland"
  else "Country:UK".

(** ** Event type (lines 57-68) *)

Definition event_type_options : list string :=
  ["All Events"; "Protests"; "Violence"; "Diplomacy"; "Public Statements"].

Definition event_filter_of (selected_event_type : string) : option string :=
  if selected_event_type =? "Protests" then Some "EventCode:17*"
  else if selected_event_type =? "Violence" then Some "EventCode:18*,19*,20*"
  else if selected_event_type =? "Diplomacy" then Some "EventCode:01*,02*,03*,04*"
  else if selected_event_type =? "Public Statements" then Some "EventCode:05*,06*"
  else None.

(** ** Lemmas *)

(** Subtracting fewer days than the ordinal, inside a run. *)
Lemma lift_sub_days_ok (dt : datetime) (k : Z) :
  valid_datetime dt = true -> (0 <= k < dt_ord dt)%Z ->
  lift_dt (sub_days dt k) = sret (mk_datetime (dt_ord dt - k) (dt_us dt)).
Proof.
  intros V Hk. destruct (sub_days_ok dt k V Hk) as [-> _]. reflexivity.
Qed.

(** ... and the day falling before 0001-01-01, inside a run. *)
Lemma lift_sub_days_overflow (dt : datetime) (k : Z) :
  valid_datetime dt = true -> (0 <= k)%Z -> (dt_ord dt <= k)%Z ->
  lift_dt (sub_days dt k) = raise (ExnDate (OverflowError "date value out of range")).
Proof.
  intros V Hk Hle. rewrite (sub_days_overflow dt k Hle). reflexivity.
Qed.

(** The offset each preset option subtracts. *)
Definition preset_days : list (string * Z) :=
  [("Last Month", 30%Z); ("Last 3 Months", 90%Z); ("Last 6 Months", 180%Z)].

(** C8: Each preset time span ends at [now] and starts exactly 30, 90 or
    180 days earlier at the same time of day, without showing any widget. *)
Theorem preset_window (now : datetime) (ws : widget_state) (label : string) (k : Z) :
  valid_datetime now = true -> In (label, k) preset_days -> (k < dt_ord now)%Z ->
  resolve_time_span now label ws =
  ([], inr (Some (mk_datetime (dt_ord now - k) (dt_us now)), now)).
Proof.
  intros V Hin Hk.
  simpl in Hin; repeat destruct Hin as [Hin|Hin]; try contradiction; inv Hin;
    unfold resolve_time_span; simpl;
    rewrite lift_sub_days_ok by (auto; lia); reflexivity.
Qed.

(** C9: "Custom Date Range" shows the two date pickers in order and
    takes the window from them: from the start of the start day
    ([time.min]) to the end of the end day ([time.max]).  A picker left
    at its default gives [now] minus 90 days and [now]. *)
Theorem custom_window (now : datetime) (ws : widget_state) :
  valid_datetime now = true -> (90 < dt_ord now)%Z ->
  let sd := match ws_start ws with Some d => d | None => (dt_ord now - 90)%Z end in
  let ed := match ws_end ws with Some d => d | None => dt_ord now end in
  resolve_time_span now "Custom Date Range" ws =
  ([SidebarDateInput "Start Date" sd; SidebarDateInput "End Date" ed],
   inr (Some (combine sd time_min), combine ed time_max)).
Proof.
  intros V Hk. unfold resolve_time_span. simpl.
  rewrite lift_sub_days_ok by (auto; lia).
  destruct (ws_start ws), (ws_end ws); reflexivity.
Qed.

(** Every option of the "Time Span" list leaves [start_date] set. *)
Lemma resolve_time_span_start (now : datetime) (ws : widget_state)
  (sel : string) (dates : option datetime * datetime) :
  In sel time_span_options ->
  outcome (resolve_time_span now sel ws) = inr dates -> fst dates <> None.
Proof.
  intros Hin. simpl in Hin. unfold resolve_time_span.
  repeat destruct Hin as [Hin|Hin]; try contradiction; subst; simpl;
    destruct (sub_days now _) as [e|s]; simpl; try discriminate;
    try (destruct (ws_start ws), (ws_end ws));
    intros H; inv H; simpl; discriminate.
Qed.

(** C10: The fallback of lines 34-36 ("Default to last 3 months if custom
    range is not fully set") is dead code: whatever the widget state, the
    label the "Time Span" selectbox returns always sets [start_date]. *)
Theorem date_fallback_unreachable (now : datetime) (ws : widget_state)
  (sel : string) (dates : option datetime * datetime) :
  outcome (selectbox "Time Span" time_span_options 1 (ws_time_span ws)) = inr sel ->
  outcome (resolve_time_span now sel ws) = inr dates ->
  exists s, fst dates = Some s.
Proof.
  intros Hsel Hres.
  pose proof (resolve_time_span_start now ws sel dates (selectbox_member _ _ _ _ _ Hsel) Hres).
  destruct (fst dates) as [s|]; [exists s; reflexivity|contradiction].
Qed.

(** C19: The time-span block of lines 13-36 on a custom range: with
    "Custom Date Range" picked and both days picked, the page shows the
    selectbox and the two pickers, and the date strings are those of the
    start of the start day and the end of the end day.  Nothing compares
    the two days: a start after the end is passed on as it is. *)
Theorem time_span_filter_custom (now : datetime) (ws : widget_state) (sd ed : date) :
  valid_datetime now = true -> (90 < dt_ord now)%Z ->
  ws_time_span ws = Some 3%nat -> ws_start ws = Some sd -> ws_end ws = Some ed ->
  time_span_filter now ws =
  ([SidebarSelectbox "Time Span" "Custom Date Range";
    SidebarDateInput "Start Date" sd; SidebarDateInput "End Date" ed],
   inr ("Custom Date Range",
        (strftime_Ymd (combine sd time_min), strftime_Ymd (combine ed time_max)))).
Proof.
  intros V Hn Hts Hs He. unfold time_span_filter, selectbox. rewrite Hts. simpl.
  unfold resolve_time_span. simpl.
  rewrite lift_sub_days_ok by (auto; lia). rewrite Hs, He. reflexivity.
Qed.

(** The strings lines 31-36 produce are printed by [strftime]. *)
Lemma date_strs_strftime (sd : option datetime) (ed : datetime) (s e : string) :
  outcome (date_strs sd ed) = inr (s, e) ->
  exists d1, s = strftime_Ymd d1 /\ e = strftime_Ymd ed.
Proof.
  destruct sd as [d1|]; simpl.
  - intros H. inv H. eauto.
  - intros H. apply sbind_outcome_inv in H as [d [_ H]]. simpl in H. inv H. eauto.
Qed.

(** C21: The types of what lines 13-36 compute: whenever the block
    finishes, [selected_time_span] is one of the four options, and
    [start_date_str] and [end_date_str] are strings of exactly eight
    decimal digits, the shape the [DATE>] / [DATE<] clauses need. *)
Theorem time_span_filter_types (now : datetime) (ws : widget_state) (sel s e : string) :
  outcome (time_span_filter now ws) = inr (sel, (s, e)) ->
  In sel time_span_options /\
  String.length s = 8%nat /\ all_digits s = true /\
  String.length e = 8%nat /\ all_digits e = true.
Proof.
  unfold time_span_filter. intros H.
  apply sbind_outcome_inv in H as [sel' [Hsel H]].
  apply sbind_outcome_inv in H as [dates [_ H]].
  apply sbind_outcome_inv in H as [strs [Hstrs H]]. simpl in H. inv H.
  destruct (date_strs_strftime _ _ _ _ Hstrs) as [d1 [-> ->]].
  destruct (strftime_Ymd_shape d1), (strftime_Ymd_shape (snd dates)).
  split; [exact (selectbox_member _ _ _ _ _ Hsel)|auto].
Qed.

(** ** Witnesses *)

Definition sample_now : datetime := mk_datetime 738977 5.

Lemma preset_window_witness :
  resolve_time_span sample_now "Last 6 Months" fresh_state =
  ([], inr (Some (mk_datetime (738977 - 180) 5), sample_now)).
Proof. apply (preset_window sample_now fresh_state "Last 6 Months" 180); [reflexivity | simpl; tauto | simpl; lia]. Defined.

Lemma custom_window_witness :
  resolve_time_span sample_now "Custom Date Range" (mk_widget_state (Some 3%nat) (Some 738886%Z) None None None) =
  ([SidebarDateInput "Start Date" 738886; SidebarDateInput "End Date" 738977],
   inr (Some (combine 738886 time_min), combine 738977 time_max)).
Proof. apply (custom_window sample_now); [reflexivity | simpl; lia]. Defined.

Lemma date_fallback_unreachable_witness :
  exists s, fst (Some (mk_datetime (738977 - 90) 5), sample_now) = Some s.
Proof.
  apply (date_fallback_unreachable sample_now fresh_state "Last 3 Months"); reflexivity.
Defined.

(** A range picked backwards, 2024-03-31 to 2024-01-01. *)
Lemma time_span_filter_custom_witness :
  time_span_filter sample_now (mk_widget_state (Some 3%nat) (Some 738976%Z) (Some 738886%Z) None None) =
  ([SidebarSelectbox "Time Span" "Custom Date Range";
    SidebarDateInput "Start Date" 738976; SidebarDateInput "End Date" 738886],
   inr ("Custom Date Range",
        (strftime_Ymd (combine 738976 time_min), strftime_Ymd (combine 738886 time_max)))).
Proof. apply time_span_filter_custom; reflexivity. Defined.

Example backwards_range_strings :
  (strftime_Ymd (combine 738976 time_min), strftime_Ymd (combine 738886 time_max))
  = ("20240331", "20240101").
Proof. vm_compute. reflexivity. Qed.

Lemma time_span_filter_types_witness :
  In "Last 3 Months" time_span_options /\
  String.length "20240102" = 8%nat /\ all_digits "20240102" = true /\
  String.length "20240401" = 8%nat /\ all_digits "20240401" = true.
Proof.
  apply (time_span_filter_types sample_now fresh_state). vm_compute. reflexivity.
Defined.
