(* ===== verification/Query.v ===== *)
(** * Query: the query builder of app.py (lines 75-83)

    [query_params] starts from the date bounds and the country clause.  It
    appends [region_filter] when the region is not "United Kingdom" and
    [event_filter] when the category is not "All Events".  [query_string]
    joins the clauses with single spaces.  Both conditions are written as in
    the source, with Python truthiness of the filter strings.

    The abstract specification is the clause language of the spec (section
    6): a query is a list of typed [clause]s, chosen from the [region] and
    [category] enums.  The refinement theorem shows that the strings the
    code builds are the rendering of that clause list in the documented
    order.  The last theorems are about reading the string back: splitting
    on spaces recovers the clauses exactly when no clause contains a space.
    "Region:Northern Ireland" does contain one. *)

From Stdlib Require Import String Ascii List ZArith Lia Bool.
From S2P Require Import Prelude Calendar Frame Widgets Filters.
Import ListNotations.
Open Scope string_scope.

(** ** The code (lines 75-83) *)

(** Python truthiness of a [str]. *)
Definition py_truthy (s : string) : bool := negb (s =? "").

Definition query_params (start_date_str end_date_str : string)
  (selected_region region_filter : string)
  (selected_event_type : string) (event_filter : option string) : list string :=
  let base := ["DATE>" ++ start_date_str; "DATE<" ++ end_date_str; "COUNTRY:UK"] in
  let with_region :=
    if py_truthy region_filter && negb (selected_region =? "United Kingdom")
    then (base ++ [region_filter])%list else base in
  match event_filter with
  | Some ef =>
      if py_truthy ef && negb (selected_event_type =? "All Events")
      then (with_region ++ [ef])%list else with_region
  | None => with_region
  end.

Definition query_string (params : list string) : string := join " " params.

(** ** The abstract specification: typed clauses *)

Inductive region := UnitedKingdom | England | Scotland | Wales | NorthernIreland.

Inductive category := AllEvents | Protests | Violence | Diplomacy | PublicStatements.

Definition region_label (r : region) : string :=
  match r with
  | UnitedKingdom => "United Kingdom" | England => "England"
  | Scotland => "Scotland" | Wales => "Wales"
  | NorthernIreland => "Northern Ireland"
  end.

Definition category_label (c : category) : string :=
  match c with
  | AllEvents => "All Events" | Protests => "Protests" | Violence => "Violence"
  | Diplomacy => "Diplomacy" | PublicStatements => "Public Statements"
  end.

(** The CAMEO root-code prefixes each category selects. *)
Definition category_prefixes (c : category) : list string :=
  match c with
  | AllEvents => []
  | Protests => ["17"]
  | Violence => ["18"; "19"; "20"]
  | Diplomacy => ["01"; "02"; "03"; "04"]
  | PublicStatements => ["05"; "06"]
  end.

Inductive clause :=
| DateAfter (yyyymmdd : string)
| DateBefore (yyyymmdd : string)
| Country (code : string)
| Region (name : string)
| EventCodes (prefixes : list string).

Definition render_clause (c : clause) : string :=
  match c with
  | DateAfter d => "DATE>" ++ d
  | DateBefore d => "DATE<" ++ d
  | Country k => "COUNTRY:" ++ k
  | Region n => "Region:" ++ n
  | EventCodes ps => "EventCode:" ++ join "," (map (fun p => p ++ "*") ps)
  end.

(** The spec's query: date lower bound, date upper bound, country, then a
    region clause for a subdivision and an event clause for a category. *)
Definition spec_query (s e : string) (r : region) (c : category) : list clause :=
  ([DateAfter s; DateBefore e; Country "UK"]
   ++ (match r with UnitedKingdom => [] | _ => [Region (region_label r)] end)
   ++ (match c with AllEvents => [] | _ => [EventCodes (category_prefixes c)] end))%list.

(** ** Theorems *)

(** Every label of the "Region" selectbox is the label of a [region], and
    every label of "Event Type" the label of a [category]. *)
Lemma region_options_labels (sel : string) :
  In sel region_options -> exists r, sel = region_label r.
Proof.
  simpl. intros H. repeat destruct H as [H|H]; subst; try contradiction;
    [exists UnitedKingdom|exists England|exists Scotland|exists Wales|exists NorthernIreland];
    reflexivity.
Qed.

Lemma event_type_options_labels (sel : string) :
  In sel event_type_options -> exists c, sel = category_label c.
Proof.
  simpl. intros H. repeat destruct H as [H|H]; subst; try contradiction;
    [exists AllEvents|exists Protests|exists Violence|exists Diplomacy|exists PublicStatements];
    reflexivity.
Qed.

(** C7: Refinement of the clause specification: for every region and
    category, the string list lines 40-81 build is the rendering of the
    spec's clause list.  That list is the date lower bound, the date upper
    bound and "COUNTRY:UK", then a region clause only for a subdivision,
    then an event clause with the category's CAMEO prefixes only for a
    category other than "All Events". *)
Theorem query_refines (s e : string) (r : region) (c : category) :
  query_params s e (region_label r) (region_filter_of (region_label r))
    (category_label c) (event_filter_of (category_label c))
  = map render_clause (spec_query s e r c).
Proof. destruct r, c; reflexivity. Qed.

(** C15: Reading back the query string the code builds: with date strings
    without spaces, splitting [query_string] on spaces gives back exactly
    the clauses of [query_params] if and only if the region is not
    Northern Ireland.  "Region:Northern Ireland" (line 51) is the one
    clause of lines 44-68 that contains the separator of line 83: it comes
    back as two pieces. *)
Theorem query_split_roundtrip (s e : string) (r : region) (c : category) :
  has_char " " s = false -> has_char " " e = false ->
  let params := query_params s e (region_label r) (region_filter_of (region_label r))
                  (category_label c) (event_filter_of (category_label c)) in
  split_on " " (query_string params) = params <-> r <> NorthernIreland.
Proof.
  intros Hs He params. unfold query_string. split.
  - intros H ->. apply (f_equal (@length string)) in H.
    rewrite length_split_on, count_char_join in H.
    subst params. destruct c; simpl in H;
      rewrite ?count_char_no_sep in H by assumption; lia.
  - intros Hr. apply split_join.
    + subst params. destruct r, c; discriminate.
    + apply Forall_forall. intros x Hx. subst params.
      destruct r, c; try congruence; simpl in Hx;
        repeat destruct Hx as [<-|Hx]; try contradiction;
        simpl; rewrite ?Hs, ?He; reflexivity.
Qed.

(** ** Witnesses *)

Lemma query_split_roundtrip_witness :
  let params := query_params "20240101" "20240401" (region_label Scotland)
                  (region_filter_of (region_label Scotland))
                  (category_label Protests) (event_filter_of (category_label Protests)) in
  split_on " " (query_string params) = params <-> Scotland <> NorthernIreland.
Proof. apply query_split_roundtrip; reflexivity. Defined.
