(* ===== verification/App.v ===== *)
(** * App: the whole script of app.py as one run

    [app] is lines 10-120 in program order (the client created at line 7
    is the [GdeltSearch] instance).  It shows the sidebar header,
    resolves the three filters ([Filters]), shows the title and the summary
    line, builds the query ([Query]) and shows it.  It then runs the [try]
    block of lines 87-120 ([fetch_and_present]).  The GDELT client is an
    injected dependency: any instance of [GdeltSearch], a [Search] that
    returns a frame or fails with a message.  This is the spec's
    "external search capability".

    Inside the [try] block, [present] is lines 91-115.  It warns on an
    empty result.  Otherwise it reports the row count, selects and renames
    the nine display columns, shows the table, and shows the bar chart of
    [value_counts] of "Event Root Code".  Any exception in the block, the
    fetch's or a [KeyError] of the selection, is caught by [except Exception]
    and shown as two [st.error] lines.

    The host's rerun loop is the step relation [step] on the widget state:
    a user event changes one widget, then the whole script runs again.
    [app_query_refines] ties a whole run to the spec: the query line the
    page shows renders the spec's clause list. *)

From Stdlib Require Import String List ZArith Lia Bool.
From S2P Require Import Prelude Calendar Frame ValueCounts Widgets Filters Query.
Import ListNotations.
Open Scope string_scope.
Open Scope gdelt_scope.

(** ** The GDELT client (lines 4, 7, 89) *)

Class GdeltSearch := {
  Search : string -> string + frame   (** a frame, or the message it raised *)
}.

(** ** Lines 96-108: the display columns and their labels *)

Definition display_columns : list string :=
  ["SQLDATE"; "Actor1Name"; "Actor2Name"; "EventCode"; "EventRootCode";
   "GoldsteinScale"; "NumMentions"; "AvgTone"; "SOURCEURL"].

Definition rename_columns : list (string * string) :=
  [("SQLDATE", "Event Date"); ("Actor1Name", "Actor 1"); ("Actor2Name", "Actor 2");
   ("EventCode", "Event Code"); ("EventRootCode", "Event Root Code");
   ("GoldsteinScale", "Goldstein Scale"); ("NumMentions", "Mentions");
   ("AvgTone", "Avg Tone"); ("SOURCEURL", "Source URL")].

Definition display_labels : list string := map snd rename_columns.

(** ** Lines 91-115: presenting a fetched frame *)

Definition no_events_msg : string := "No events found matching the selected criteria.".

Definition present (uk_events : frame) : M unit :=
  if empty uk_events then emit (Warning no_events_msg)
  else
    emit (Success ("Found " ++ py_str_nat (len uk_events) ++ " events.")) ;;;
    selected <- lift_frame (getitem_cols uk_events display_columns) ;;
    let uk_events_display := rename selected rename_columns in
    emit (DataFrameView uk_events_display) ;;;
    emit (Subheader "Event Code Distribution") ;;;
    event_code_counts <- lift_frame (getitem_col uk_events_display "Event Root Code") ;;
    emit (BarChart (value_counts_cells event_code_counts)).

(** ** Lines 87-120: the [try] block *)

Definition hint_msg : string :=
  "Please ensure you have internet connectivity and the GDELT library is correctly installed.".

Definition error_lines (e : exn) : M unit :=
  emit (Error ("Error fetching data from GDELT: " ++ exn_str e)) ;;;
  emit (Error hint_msg).

(** What [uk_events = gdelt_conn.Search(query_string)] (line 89) binds,
    or raises, given the client's answer. *)
Definition search_result (ans : string + frame) : M frame :=
  match ans with
  | inl msg => raise (ExnSearch msg)
  | inr f => sret f
  end.

Definition fetch_and_present `{GdeltSearch} (query_string : string) : M unit :=
  try_except
    (emit (Write "Fetching data from GDELT...") ;;;
     uk_events <- search_result (Search query_string) ;;
     present uk_events)
    error_lines.

(** ** Lines 10-120: one run of the script *)

(** Lines 10-85, up to the [try]: the sidebar, the three filters, the
    title, the summary line and the query line.  It returns
    [query_string]. *)
Definition app_prefix (now : datetime) (ws : widget_state) : M string :=
  emit (SidebarHeader "Filters") ;;;
  ts <- time_span_filter now ws ;;
  let '(_, (start_date_str, end_date_str)) := ts in
  selected_region <- selectbox "Region" region_options 0 (ws_region ws) ;;
  let region_filter := region_filter_of selected_region in
  selected_event_type <- selectbox "Event Type" event_type_options 0 (ws_event ws) ;;
  let event_filter := event_filter_of selected_event_type in
  emit (Title "UK Historical Events Dashboard (GDELT)") ;;;
  emit (Write ("Displaying events for **" ++ selected_region ++ "** from **"
               ++ start_date_str ++ "** to **" ++ end_date_str ++ "**")) ;;;
  let qs := query_string (query_params start_date_str end_date_str selected_region
                            region_filter selected_event_type event_filter) in
  emit (Info ("GDELT Query: `" ++ qs ++ "`")) ;;;
  sret qs.

Definition app `{GdeltSearch} (now : datetime) (ws : widget_state) : M unit :=
  qs <- app_prefix now ws ;;
  fetch_and_present qs.

(** ** The [try] block *)

Definition fetching_msg : string := "Fetching data from GDELT...".

(** C2: A failing fetch is caught: after "Fetching data from GDELT..."
    the page shows exactly the two error lines, the first carrying the
    exception's message, and the run ends normally. *)
Theorem fetch_failure_caught `{GdeltSearch} (q msg : string) :
  Search q = inl msg ->
  fetch_and_present q =
  ([Write fetching_msg; Error ("Error fetching data from GDELT: " ++ msg); Error hint_msg],
   inr tt).
Proof. intros HS. unfold fetch_and_present. rewrite HS. reflexivity. Qed.

(** C5: An empty result is not an error: the page shows the warning and
    neither table nor chart, and the run ends normally. *)
Theorem empty_result_warns `{GdeltSearch} (q : string) (f : frame) :
  Search q = inr f -> empty f = true ->
  fetch_and_present q = ([Write fetching_msg; Warning no_events_msg], inr tt).
Proof.
  intros HS He. unfold fetch_and_present. rewrite HS. cbn [sbind sret emit search_result].
  unfold present. rewrite He. reflexivity.
Qed.

Lemma filter_nonnull_all (col : list cell) :
  Forall (fun c => cell_isnull c = false) col ->
  filter (fun c => negb (cell_isnull c)) col = col.
Proof. induction 1 as [|c col Hc _ IH]; simpl; [reflexivity|]. rewrite Hc, IH. reflexivity. Qed.

(** C4: A non-empty result with the nine expected columns: the page shows
    "Found N events." with N the number of rows, the table of the N rows
    with the nine columns under their display labels, the subheader, and
    the bar chart of [value_counts] of the root codes.  The counts add up
    to the number of non-missing root codes, which is N when no root code
    is missing. *)
Theorem success_presents `{GdeltSearch} (q : string) (f : frame) :
  Search q = inr f -> wf_frame f -> empty f = false ->
  Forall (fun k => has_col f k = true) display_columns ->
  exists g counts,
    fetch_and_present q =
      ([Write fetching_msg; Success ("Found " ++ py_str_nat (nrows f) ++ " events.");
        DataFrameView g; Subheader "Event Code Distribution"; BarChart counts], inr tt)
    /\ nrows g = nrows f /\ col_names g = display_labels
    /\ counts = value_counts_cells (col_data f "EventRootCode")
    /\ total_count counts =
       length (filter (fun c => negb (cell_isnull c)) (col_data f "EventRootCode"))
    /\ (Forall (fun c => cell_isnull c = false) (col_data f "EventRootCode") ->
        total_count counts = nrows f).
Proof.
  intros HS Hwf He Hall.
  exists (rename (mk_frame (nrows f) (map (fun k => (k, col_data f k)) display_columns))
            rename_columns), (value_counts_cells (col_data f "EventRootCode")).
  split.
  { unfold fetch_and_present. rewrite HS. cbn [sbind sret emit search_result].
    unfold present. rewrite He. unfold getitem_cols. rewrite (filter_negb_all _ _ Hall).
    reflexivity. }
  do 3 (split; [reflexivity|]).
  split; [apply value_counts_cells_total|].
  intros Hnn. rewrite value_counts_cells_total, filter_nonnull_all by exact Hnn.
  apply col_data_length; [exact Hwf|].
  rewrite Forall_forall in Hall. apply Hall. simpl. tauto.
Qed.

(** C3: A result that lacks one of the nine columns: [uk_events[...]]
    raises [KeyError] inside the [try] block, so it is caught like a failed
    fetch.  The page keeps the "Found N events." line already shown, then
    the two error lines, and the run ends normally. *)
Theorem missing_column_caught `{GdeltSearch} (q : string) (f : frame)
  (missing : list string) :
  Search q = inr f -> empty f = false ->
  getitem_cols f display_columns = inl (KeyError missing) ->
  fetch_and_present q =
  ([Write fetching_msg; Success ("Found " ++ py_str_nat (nrows f) ++ " events.");
    Error ("Error fetching data from GDELT: " ++ exn_str (ExnFrame (KeyError missing)));
    Error hint_msg], inr tt).
Proof.
  intros HS He Hg. unfold fetch_and_present. rewrite HS. cbn [sbind sret emit search_result].
  unfold present. rewrite He, Hg. reflexivity.
Qed.

(** Nothing escapes the [try] block. *)
Lemma fetch_and_present_total `{GdeltSearch} (q : string) :
  outcome (fetch_and_present q) = inr tt.
Proof.
  unfold fetch_and_present.
  destruct (_ ;;; _) as [o [e|[]]]; [|reflexivity].
  unfold try_except, error_lines. simpl. reflexivity.
Qed.

(** C18: The table [st.dataframe] shows (line 110) is well formed: for a
    well-formed result with the nine columns, selecting them (line 97) and
    renaming them with the dict of lines 99-107 keeps one cell per row in
    each column and gives nine distinct labels, the display labels in
    order.  The dict maps no two selected columns to the same label. *)
Theorem displayed_frame_wf (f : frame) :
  wf_frame f -> Forall (fun k => has_col f k = true) display_columns ->
  exists g, getitem_cols f display_columns = inr g /\
    wf_frame (rename g rename_columns) /\ nrows (rename g rename_columns) = nrows f /\
    col_names (rename g rename_columns) = display_labels.
Proof.
  intros Hwf Hall. unfold getitem_cols. rewrite (filter_negb_all _ _ Hall).
  eexists. split; [reflexivity|]. split; [|split; reflexivity].
  apply rename_wf.
  - apply getitem_cols_wf; [exact Hwf| |exact Hall].
    repeat constructor; simpl; intuition discriminate.
  - rewrite col_names_getitem. simpl.
    repeat constructor; simpl; intuition discriminate.
Qed.

(** ** Whole runs *)

(** The widget state a page can hold: each selectbox index is one of
    its options. *)
Definition ws_ok (ws : widget_state) : Prop :=
  pick_ok time_span_options (ws_time_span ws) /\
  pick_ok region_options (ws_region ws) /\
  pick_ok event_type_options (ws_event ws).

(** Lines 13-36 finish on every such state when [now] is past day 180. *)
Lemma time_span_filter_ok (now : datetime) (ws : widget_state) :
  valid_datetime now = true -> (180 < dt_ord now)%Z ->
  pick_ok time_span_options (ws_time_span ws) ->
  exists r, outcome (time_span_filter now ws) = inr r.
Proof.
  intros V Hn Hp. unfold time_span_filter.
  destruct (selectbox_ok "Time Span" time_span_options 1 (ws_time_span ws))
    as [v [Hin ->]]; [simpl; lia|exact Hp|].
  simpl in Hin. repeat destruct Hin as [<-|Hin]; try contradiction;
    unfold resolve_time_span; simpl;
    rewrite lift_sub_days_ok by (auto; lia);
    try (destruct (ws_start ws), (ws_end ws)); eexists; reflexivity.
Qed.

(** Lines 10-85 finish on every such state, with the query string. *)
Lemma app_prefix_ok (now : datetime) (ws : widget_state) :
  valid_datetime now = true -> (180 < dt_ord now)%Z -> ws_ok ws ->
  exists qs, outcome (app_prefix now ws) = inr qs.
Proof.
  intros V Hn (Ht & Hr & He). unfold app_prefix.
  erewrite sbind_outcome_ok by reflexivity.
  destruct (time_span_filter_ok now ws V Hn Ht) as [[sel [s e]] Hts].
  rewrite (sbind_outcome_ok _ _ _ Hts).
  destruct (selectbox_ok "Region" region_options 0 (ws_region ws)) as [r [_ ->]];
    [simpl; lia|exact Hr|].
  erewrite sbind_outcome_ok by reflexivity.
  destruct (selectbox_ok "Event Type" event_type_options 0 (ws_event ws)) as [c [_ ->]];
    [simpl; lia|exact He|].
  do 3 (erewrite sbind_outcome_ok by reflexivity).
  eexists. reflexivity.
Qed.

(** Safety of a whole run: from any widget state the page can hold,
    with [now] a datetime of the range past its first 180 days, the script
    runs to its end.  No exception escapes: the date arithmetic cannot
    overflow there, the selectboxes cannot raise, and the [try] block
    catches everything else. *)
Theorem app_total `{GdeltSearch} (now : datetime) (ws : widget_state) :
  valid_datetime now = true -> (180 < dt_ord now)%Z -> ws_ok ws ->
  outcome (app now ws) = inr tt.
Proof.
  intros V Hn Hok. destruct (app_prefix_ok now ws V Hn Hok) as [qs Hqs].
  unfold app. rewrite (sbind_outcome_ok _ _ _ Hqs).
  apply fetch_and_present_total.
Qed.

Definition overflow_msg : string := "date value out of range".

(** C6: The one exception that escapes: on a fresh page ("Last 3 Months")
    whose [now] falls in the first 90 days of the calendar,
    [end_date - timedelta(days=90)] raises [OverflowError] at line 22.
    That is before the [try] block, so the run stops after the sidebar
    header and the first selectbox. *)
Theorem app_overflow_uncaught `{GdeltSearch} (now : datetime) (ws : widget_state) :
  valid_datetime now = true -> (dt_ord now <= 90)%Z -> ws_time_span ws = None ->
  app now ws =
  ([SidebarHeader "Filters"; SidebarSelectbox "Time Span" "Last 3 Months"],
   inl (ExnDate (OverflowError overflow_msg))).
Proof.
  intros V Hn Hts. unfold app, app_prefix, time_span_filter, selectbox. rewrite Hts. simpl.
  unfold resolve_time_span. simpl.
  rewrite lift_sub_days_overflow by (auto; lia). reflexivity.
Qed.

(** C17: End to end, the query the page shows refines the spec: when the
    time-span block yields the date strings [s] and [e] and the two
    selectboxes return the labels of region [r] and category [c], the run
    shows the Info line with the space-joined rendering of the spec's
    clause list for [s], [e], [r], [c]. *)
Theorem app_query_refines `{GdeltSearch} (now : datetime) (ws : widget_state)
  (sel s e : string) (r : region) (c : category) :
  outcome (time_span_filter now ws) = inr (sel, (s, e)) ->
  outcome (selectbox "Region" region_options 0 (ws_region ws)) = inr (region_label r) ->
  outcome (selectbox "Event Type" event_type_options 0 (ws_event ws)) = inr (category_label c) ->
  In (Info ("GDELT Query: `" ++ query_string (map render_clause (spec_query s e r c)) ++ "`"))
     (outputs (app now ws)).
Proof.
  intros Hts Hr Hc. unfold app. apply sbind_in_outputs_l. unfold app_prefix.
  apply (sbind_in_outputs _ _ tt); [reflexivity|].
  apply (sbind_in_outputs _ _ _ _ Hts). cbv iota beta.
  apply (sbind_in_outputs _ _ _ _ Hr).
  apply (sbind_in_outputs _ _ _ _ Hc).
  do 2 (apply (sbind_in_outputs _ _ tt); [reflexivity|]).
  simpl. left. destruct r, c; reflexivity.
Qed.

(** ** The rerun loop *)

(** What the user can do between two runs: pick an option or a day. *)
Inductive ui_event :=
| PickTimeSpan (i : nat)
| PickStart (d : date)
| PickEnd (d : date)
| PickRegion (i : nat)
| PickEvent (i : nat).

Definition apply_event (ws : widget_state) (ev : ui_event) : widget_state :=
  match ev with
  | PickTimeSpan i => mk_widget_state (Some i) (ws_start ws) (ws_end ws) (ws_region ws) (ws_event ws)
  | PickStart d => mk_widget_state (ws_time_span ws) (Some d) (ws_end ws) (ws_region ws) (ws_event ws)
  | PickEnd d => mk_widget_state (ws_time_span ws) (ws_start ws) (Some d) (ws_region ws) (ws_event ws)
  | PickRegion i => mk_widget_state (ws_time_span ws) (ws_start ws) (ws_end ws) (Some i) (ws_event ws)
  | PickEvent i => mk_widget_state (ws_time_span ws) (ws_start ws) (ws_end ws) (ws_region ws) (Some i)
  end.

(** The browser offers only the options the selectbox lists. *)
Definition event_ok (ev : ui_event) : bool :=
  match ev with
  | PickTimeSpan i => (i <? length time_span_options)%nat
  | PickRegion i => (i <? length region_options)%nat
  | PickEvent i => (i <? length event_type_options)%nat
  | PickStart _ | PickEnd _ => true
  end.

(** One interaction: the state changes, then the script runs again on it. *)
Inductive step : widget_state -> widget_state -> Prop :=
| step_event (ws : widget_state) (ev : ui_event) :
    event_ok ev = true -> step ws (apply_event ws ev).

Inductive reachable : widget_state -> Prop :=
| reach_fresh : reachable fresh_state
| reach_step (ws ws' : widget_state) : reachable ws -> step ws ws' -> reachable ws'.

Lemma ws_ok_fresh : ws_ok fresh_state.
Proof. repeat split. Qed.

Lemma ws_ok_step (ws ws' : widget_state) : ws_ok ws -> step ws ws' -> ws_ok ws'.
Proof.
  intros (Ht & Hr & He) Hs. inv Hs.
  destruct ev; simpl in *; repeat split; auto; apply Nat.ltb_lt; assumption.
Qed.

Lemma reach_event (ws : widget_state) (ev : ui_event) :
  reachable ws -> event_ok ev = true -> reachable (apply_event ws ev).
Proof. intros R E. exact (reach_step _ _ R (step_event ws ev E)). Qed.

(** The states the rerun loop reaches from a fresh page are exactly
    the states where each selectbox holds one of its options (the days
    picked are free). *)
Theorem reachable_iff_ws_ok (ws : widget_state) : reachable ws <-> ws_ok ws.
Proof.
  split.
  - induction 1; [exact ws_ok_fresh | eapply ws_ok_step; eauto].
  - destruct ws as [t s e r v]. intros (Ht & Hr & Hv); simpl in *.
    assert (R1 : reachable (mk_widget_state t None None None None)).
    { destruct t as [i|]; [|exact reach_fresh].
      apply (reach_event fresh_state (PickTimeSpan i) reach_fresh). apply Nat.ltb_lt, Ht. }
    assert (R2 : reachable (mk_widget_state t s None None None)).
    { destruct s as [d|]; [|exact R1]. exact (reach_event _ (PickStart d) R1 eq_refl). }
    assert (R3 : reachable (mk_widget_state t s e None None)).
    { destruct e as [d|]; [|exact R2]. exact (reach_event _ (PickEnd d) R2 eq_refl). }
    assert (R4 : reachable (mk_widget_state t s e r None)).
    { destruct r as [i|]; [|exact R3].
      apply (reach_event _ (PickRegion i) R3). apply Nat.ltb_lt, Hr. }
    destruct v as [i|]; [|exact R4].
    apply (reach_event _ (PickEvent i) R4). apply Nat.ltb_lt, Hv.
Qed.

(** C1: Safety of the rerun loop: after any sequence of user interactions,
    the rerun of the script with [now] past the first 180 days of the
    calendar runs to its end without an uncaught exception. *)
Theorem rerun_safe `{GdeltSearch} (now : datetime) (ws : widget_state) :
  reachable ws -> valid_datetime now = true -> (180 < dt_ord now)%Z ->
  outcome (app now ws) = inr tt.
Proof.
  intros R V Hn. apply app_total; auto.
  induction R; [exact ws_ok_fresh | eapply ws_ok_step; eauto].
Qed.

(** ** Liveness of the loop *)

(** Zero or more interactions. *)
Inductive steps : widget_state -> widget_state -> Prop :=
| steps_refl (ws : widget_state) : steps ws ws
| steps_cons (ws ws' ws'' : widget_state) : step ws ws' -> steps ws' ws'' -> steps ws ws''.

(** The position of each region in [region_options] (line 40) and of each
    category in [event_type_options] (line 57). *)
Definition region_index (r : region) : nat :=
  match r with
  | UnitedKingdom => 0 | England => 1 | Scotland => 2 | Wales => 3 | NorthernIreland => 4
  end.

Definition category_index (c : category) : nat :=
  match c with
  | AllEvents => 0 | Protests => 1 | Violence => 2 | Diplomacy => 3 | PublicStatements => 4
  end.

Lemma steps_event (ws : widget_state) (ev : ui_event) (ws'' : widget_state) :
  event_ok ev = true -> steps (apply_event ws ev) ws'' -> steps ws ws''.
Proof. intros E S. exact (steps_cons _ _ _ (step_event ws ev E) S). Qed.

Lemma reachable_steps (ws ws' : widget_state) : reachable ws -> steps ws ws' -> reachable ws'.
Proof. intros R S. induction S; [exact R|]. apply IHS. exact (reach_step _ _ R H). Qed.

(** C22: Liveness of the rerun loop: from any page the loop reaches, the
    user can, by three interactions, reach a page whose run selects any
    time span, any region and any category. *)
Theorem selection_reachable (ws : widget_state) (i : nat) (r : region) (c : category) :
  reachable ws -> (i < length time_span_options)%nat ->
  exists ws', steps ws ws' /\ reachable ws' /\
    outcome (selectbox "Time Span" time_span_options 1 (ws_time_span ws'))
      = inr (nth i time_span_options "") /\
    outcome (selectbox "Region" region_options 0 (ws_region ws')) = inr (region_label r) /\
    outcome (selectbox "Event Type" event_type_options 0 (ws_event ws')) = inr (category_label c).
Proof.
  intros R Hi.
  set (ws' := apply_event (apply_event (apply_event ws (PickTimeSpan i))
                (PickRegion (region_index r))) (PickEvent (category_index c))).
  assert (S : steps ws ws').
  { apply (steps_event _ (PickTimeSpan i)); [apply Nat.ltb_lt, Hi|].
    apply (steps_event _ (PickRegion (region_index r))); [destruct r; reflexivity|].
    apply (steps_event _ (PickEvent (category_index c))); [destruct c; reflexivity|].
    apply steps_refl. }
  exists ws'. split; [exact S|split; [exact (reachable_steps _ _ R S)|]].
  simpl in Hi. unfold ws', selectbox. simpl.
  split; [|split; [destruct r|destruct c]; reflexivity].
  do 4 (destruct i as [|i]; [reflexivity|]). lia.
Qed.

(** ** Witnesses *)

Definition failing_client : GdeltSearch := {| Search := fun _ => inl "connection refused" |}.

Definition serving_client (f : frame) : GdeltSearch := {| Search := fun _ => inr f |}.

(** Two GDELT rows with the nine display columns (and one more). *)
Definition events_frame : frame :=
  mk_frame 2
    [("GLOBALEVENTID", [CNum 1; CNum 2]);
     ("SQLDATE", [CNum 20240301; CNum 20240302]);
     ("Actor1Name", [CStr "UNITED KINGDOM"; CStr "POLICE"]);
     ("Actor2Name", [CStr "PROTESTER"; CNaN]);
     ("EventCode", [CStr "141"; CStr "173"]);
     ("EventRootCode", [CStr "14"; CStr "17"]);
     ("GoldsteinScale", [CNum (-6); CNum (-5)]);
     ("NumMentions", [CNum 10; CNum 4]);
     ("AvgTone", [CNum (-3); CNum (-2)]);
     ("SOURCEURL", [CStr "https://example.org/a"; CStr "https://example.org/b"])].

Lemma fetch_failure_caught_witness :
  fetch_and_present (H := failing_client) "Q" =
  ([Write fetching_msg; Error ("Error fetching data from GDELT: " ++ "connection refused");
    Error hint_msg], inr tt).
Proof. apply (@fetch_failure_caught failing_client "Q" "connection refused"). reflexivity. Defined.

Lemma empty_result_warns_witness :
  fetch_and_present (H := serving_client (mk_frame 0 [])) "Q" =
  ([Write fetching_msg; Warning no_events_msg], inr tt).
Proof. apply (@empty_result_warns (serving_client (mk_frame 0 [])) "Q" (mk_frame 0 [])); reflexivity. Defined.

Lemma success_presents_witness :
  exists g counts,
    fetch_and_present (H := serving_client events_frame) "Q" =
      ([Write fetching_msg; Success ("Found " ++ py_str_nat (nrows events_frame) ++ " events.");
        DataFrameView g; Subheader "Event Code Distribution"; BarChart counts], inr tt)
    /\ nrows g = nrows events_frame /\ col_names g = display_labels
    /\ counts = value_counts_cells (col_data events_frame "EventRootCode")
    /\ total_count counts =
       length (filter (fun c => negb (cell_isnull c)) (col_data events_frame "EventRootCode"))
    /\ (Forall (fun c => cell_isnull c = false) (col_data events_frame "EventRootCode") ->
        total_count counts = nrows events_frame).
Proof.
  apply (@success_presents (serving_client events_frame) "Q" events_frame).
  - reflexivity.
  - split; [repeat constructor; simpl; intuition discriminate | repeat constructor].
  - reflexivity.
  - repeat constructor.
Defined.

Lemma missing_column_caught_witness :
  fetch_and_present (H := serving_client (mk_frame 1 [("SQLDATE", [CNum 20240301])])) "Q" =
  ([Write fetching_msg; Success ("Found " ++ py_str_nat 1 ++ " events.");
    Error ("Error fetching data from GDELT: "
           ++ exn_str (ExnFrame (KeyError (tl display_columns))));
    Error hint_msg], inr tt).
Proof.
  apply (@missing_column_caught (serving_client (mk_frame 1 [("SQLDATE", [CNum 20240301])])) "Q"
           (mk_frame 1 [("SQLDATE", [CNum 20240301])])); reflexivity.
Defined.

Lemma app_overflow_uncaught_witness :
  app (H := failing_client) (mk_datetime 50 0) fresh_state =
  ([SidebarHeader "Filters"; SidebarSelectbox "Time Span" "Last 3 Months"],
   inl (ExnDate (OverflowError overflow_msg))).
Proof. apply (@app_overflow_uncaught failing_client); [reflexivity | simpl; lia | reflexivity]. Defined.

Lemma rerun_safe_witness :
  outcome (app (H := failing_client) sample_now (apply_event fresh_state (PickRegion 2))) = inr tt.
Proof.
  apply (@rerun_safe failing_client).
  - exact (reach_event fresh_state (PickRegion 2) reach_fresh eq_refl).
  - reflexivity.
  - simpl. lia.
Defined.

(** The spec's example (section 8): "Custom Date Range" from 2024-01-01
    to 2024-03-31 queries [DATE>20240101] and [DATE<20240331]. *)
Definition custom_range_state : widget_state :=
  mk_widget_state (Some 3%nat) (Some 738886%Z) (Some 738976%Z) None None.

Lemma app_query_refines_witness :
  In (Info ("GDELT Query: `" ++ query_string (map render_clause
          (spec_query "20240101" "20240331" UnitedKingdom AllEvents)) ++ "`"))
     (outputs (app (H := failing_client) sample_now custom_range_state)).
Proof.
  apply (@app_query_refines failing_client sample_now custom_range_state "Custom Date Range");
    vm_compute; reflexivity.
Defined.

Lemma selection_reachable_witness :
  exists ws', steps fresh_state ws' /\ reachable ws' /\
    outcome (selectbox "Time Span" time_span_options 1 (ws_time_span ws'))
      = inr (nth 3 time_span_options "") /\
    outcome (selectbox "Region" region_options 0 (ws_region ws')) = inr (region_label NorthernIreland) /\
    outcome (selectbox "Event Type" event_type_options 0 (ws_event ws')) = inr (category_label Violence).
Proof. apply selection_reachable; [exact reach_fresh | simpl; lia]. Defined.

Lemma displayed_frame_wf_witness :
  exists g, getitem_cols events_frame display_columns = inr g /\
    wf_frame (rename g rename_columns) /\ nrows (rename g rename_columns) = nrows events_frame /\
    col_names (rename g rename_columns) = display_labels.
Proof.
  apply displayed_frame_wf.
  - split; [repeat constructor; simpl; intuition discriminate | repeat constructor].
  - repeat constructor.
Defined.
