(* ===== verification/Session.v ===== *)
(** * Session: one run as an interaction with the page and the GDELT service

    [App] reads a run as a value: the page it builds and how it ends.  The
    spec (section 5) adds what that reading hides: [gdelt_conn.Search]
    (line 89) blocks the single thread until the service answers, with no
    timeout, and the page shows what was emitted so far while it waits.
    Here a run is an interaction tree over two kinds of events: [Show x]
    puts the element [x] on the page, and [Fetch q] sends the query [q] to
    the service and waits for its answer (a frame, or the message of the
    exception it raised).

    [app_it] is lines 10-120 in that reading: the part before the [try]
    ([App.app_prefix]) shows its elements one by one, then the [try] block
    shows "Fetching data from GDELT...", waits on [Fetch], and runs the
    rest of the block on the answer ([fetch_it]).  The [try] also covers
    the [st.write] of line 88, which cannot raise, so the block is the
    same whether that line is inside it or before it ([try_except_emit]).

    A handler says how the service behaves: [answer_h] answers with a
    [GdeltSearch] client, [silent_h] never answers.  The theorems: with an
    answering service the interpreted run is exactly the page and the end
    of [App.app] (refinement); whatever the answers, every run makes
    finitely many interactions (termination); and with a silent service the
    run shows the page up to the fetching line and never ends
    (liveness depends on the service). *)

From Stdlib Require Import String List.
From ITree Require Import ITree ITreeFacts.
From ITree.Props Require Import Finite.
From S2P Require Import Prelude Calendar Frame Widgets Filters Query App.
Import ListNotations ITreeNotations.
Local Open Scope itree_scope.

(** ** Events *)

(** [st.*] calls that put an element on the page. *)
Variant pageE : Type -> Type :=
| Show (x : elem) : pageE unit.

(** [gdelt_conn.Search(q)]: the answer is a frame or the message raised. *)
Variant fetchE : Type -> Type :=
| Fetch (q : string) : fetchE (string + frame).

Definition runE : Type -> Type := pageE +' fetchE.

(** ** A run, event by event *)

(** Showing a list of elements in order, into any event type that has
    [pageE] ([inj] embeds it). *)
Fixpoint show_all {E : Type -> Type} (inj : forall T, pageE T -> E T)
  (o : list elem) : itree E unit :=
  match o with
  | [] => Ret tt
  | x :: o' => ITree.trigger (inj _ (Show x)) ;; show_all inj o'
  end.

Definition in_run : forall T, pageE T -> runE T := fun _ e => inl1 e.
Definition in_page : forall T, pageE T -> pageE T := fun _ e => e.

(** A computation of [App] that talks to no service, replayed: its
    elements one by one, then its end. *)
Definition replay {E : Type -> Type} (inj : forall T, pageE T -> E T) {A}
  (m : M A) : itree E (exn + A) :=
  show_all inj (outputs m) ;; Ret (outcome m).

(** Lines 87-120 as they happen: the fetching line, the blocking call, and
    the rest of the [try] block on the answer. *)
Definition fetch_it (query_string : string) : itree runE (exn + unit) :=
  ITree.trigger (in_run _ (Show (Write "Fetching data from GDELT..."))) ;;
  ans <- ITree.trigger (inr1 (Fetch query_string)) ;;
  replay in_run (try_except (sbind (search_result ans) present) error_lines).

(** Lines 10-120. *)
Definition app_it (now : datetime) (ws : widget_state) : itree runE (exn + unit) :=
  r <- replay in_run (app_prefix now ws) ;;
  match r with
  | inl e => Ret (inl e)
  | inr qs => fetch_it qs
  end.

(** ** How the service behaves *)

Definition answer_h `{GdeltSearch} : fetchE ~> itree pageE :=
  fun _ e => match e in fetchE T return itree pageE T with
             | Fetch q => Ret (Search q)
             end.

(** An unresponsive service: the call never returns. *)
Definition silent_h : fetchE ~> itree pageE := fun _ _ => ITree.spin.

(** The page is the observable; the service is handled by [fh]. *)
Definition run_h (fh : fetchE ~> itree pageE) : runE ~> itree pageE :=
  fun _ e => match e with
             | inl1 p => ITree.trigger p
             | inr1 f => fh _ f
             end.

(** ** Lemmas *)

Lemma try_except_emit_run (x : elem) {A} (m : M A) (h : exn -> M A) :
  try_except (emit x ;;; m)%gdelt h = (emit x ;;; try_except m h)%gdelt.
Proof. apply try_except_emit. Qed.

Lemma show_all_app {E} (inj : forall T, pageE T -> E T) (o1 o2 : list elem) :
  show_all inj (o1 ++ o2) ≈ (show_all inj o1 ;; show_all inj o2).
Proof.
  induction o1 as [|x o1 IH]; simpl.
  - rewrite bind_ret_l. reflexivity.
  - rewrite bind_bind. apply eutt_eq_bind. intros []. exact IH.
Qed.

Lemma interp_show_all (fh : fetchE ~> itree pageE) (o : list elem) :
  interp (run_h fh) (show_all in_run o) ≈ show_all in_page o.
Proof.
  induction o as [|x o IH]; simpl.
  - rewrite interp_ret. reflexivity.
  - rewrite interp_bind, interp_trigger. simpl.
    apply eutt_eq_bind. intros []. exact IH.
Qed.

Lemma interp_replay (fh : fetchE ~> itree pageE) {A} (m : M A) :
  interp (run_h fh) (replay in_run m) ≈ replay in_page m.
Proof.
  unfold replay. rewrite interp_bind, interp_show_all.
  apply eutt_eq_bind. intros []. rewrite interp_ret. reflexivity.
Qed.

(** Replaying a sequence is replaying its first part, then, if it did not
    raise, the second. *)
Lemma replay_sbind {E} (inj : forall T, pageE T -> E T) {A B}
  (m : M A) (k : A -> M B) :
  replay inj (sbind m k) ≈
  (r <- replay inj m ;;
   match r with inl e => Ret (inl e) | inr a => replay inj (k a) end).
Proof.
  unfold replay. destruct m as [o [e|a]]; simpl; rewrite bind_bind.
  - apply eutt_eq_bind. intros []. rewrite bind_ret_l. reflexivity.
  - destruct (k a) as [o' r] eqn:Ek. simpl. rewrite show_all_app, bind_bind.
    apply eutt_eq_bind. intros []. rewrite bind_ret_l, Ek. reflexivity.
Qed.

Lemma all_finite_show_all {E} (inj : forall T, pageE T -> E T) (o : list elem) :
  all_finite (show_all inj o).
Proof.
  induction o as [|x o IH]; simpl; [apply all_finite_Ret|].
  apply all_finite_bind_weak; [apply all_finite_trigger|intros []; exact IH].
Qed.

Lemma all_finite_replay {E} (inj : forall T, pageE T -> E T) {A} (m : M A) :
  all_finite (replay inj m).
Proof.
  apply all_finite_bind_weak; [apply all_finite_show_all|intros; apply all_finite_Ret].
Qed.

(** With an answering service, lines 87-120 interpreted are the [try]
    block of [App] replayed. *)
Lemma interp_fetch_it `{GdeltSearch} (q : string) :
  interp (run_h answer_h) (fetch_it q) ≈ replay in_page (fetch_and_present q).
Proof.
  unfold fetch_it, fetch_and_present.
  rewrite try_except_emit_run, replay_sbind.
  rewrite interp_bind, interp_trigger. unfold replay at 2. simpl.
  rewrite !bind_bind. apply eutt_eq_bind. intros [].
  rewrite !bind_ret_l, interp_bind, interp_trigger. simpl.
  rewrite bind_ret_l, interp_replay. reflexivity.
Qed.

(** ** Theorems *)

(** Refinement of the value reading by the interactive one: with a
    service that answers as the client [Search] does, the run of lines
    10-120 shows exactly the elements of [App.app], in order, and ends as
    [App.app] ends. *)
Theorem app_it_refines `{GdeltSearch} (now : datetime) (ws : widget_state) :
  interp (run_h answer_h) (app_it now ws) ≈ replay in_page (app now ws).
Proof.
  unfold app_it, app. rewrite replay_sbind, interp_bind, interp_replay.
  apply eutt_eq_bind. intros [e|qs].
  - rewrite interp_ret. reflexivity.
  - apply interp_fetch_it.
Qed.

(** Termination: whatever the service answers, a run makes finitely
    many interactions and ends.  There is no loop and no retry: the only
    wait is the one [Fetch]. *)
Theorem app_it_finite (now : datetime) (ws : widget_state) :
  all_finite (app_it now ws).
Proof.
  apply all_finite_bind_weak; [apply all_finite_replay|].
  intros [e|qs]; [apply all_finite_Ret|].
  apply all_finite_bind_weak; [apply all_finite_trigger|intros []].
  apply all_finite_bind_weak; [apply all_finite_trigger|intros ans].
  apply all_finite_replay.
Qed.

(** C20: The run's end depends on the service: when lines 10-85 finish
    and the service never answers, the page shows the elements of lines
    10-85 and the fetching line, and then the run waits forever: it has
    no finite branch.  Nothing the script does (no timeout) ends it. *)
Theorem app_it_blocks (now : datetime) (ws : widget_state) (qs : string) :
  outcome (app_prefix now ws) = inr qs ->
  (exists k : string + frame -> itree pageE (exn + unit),
     interp (run_h silent_h) (app_it now ws) ≈
     (show_all in_page (outputs (app_prefix now ws) ++ [Write fetching_msg]) ;;
      ITree.bind ITree.spin k))
  /\ ~ any_finite (interp (run_h silent_h) (app_it now ws)).
Proof.
  intros Hqs.
  assert (E : exists k : string + frame -> itree pageE (exn + unit),
     interp (run_h silent_h) (app_it now ws) ≈
     (show_all in_page (outputs (app_prefix now ws) ++ [Write fetching_msg]) ;;
      ITree.bind ITree.spin k)).
  { eexists. unfold app_it, replay.
    rewrite bind_bind, interp_bind, interp_show_all, show_all_app, bind_bind.
    apply eutt_eq_bind. intros [].
    rewrite bind_ret_l, Hqs. unfold fetch_it.
    rewrite interp_bind, interp_trigger. simpl. rewrite bind_bind.
    apply eutt_eq_bind. intros [].
    rewrite bind_ret_l, interp_bind, interp_trigger. simpl. reflexivity. }
  split; [exact E|]. destruct E as [k Ek]. rewrite Ek.
  intros F. apply any_finite_bind_inv_weak in F as [_ [u F]].
  apply any_finite_bind_inv_left in F. exact (spin_not_any_finite _ _ F).
Qed.

(** ** Witnesses *)

(** A fresh page on 2024-04-01 ("Last 3 Months") with a silent service. *)
Lemma app_it_blocks_witness :
  (exists k : string + frame -> itree pageE (exn + unit),
     interp (run_h silent_h) (app_it sample_now fresh_state) ≈
     (show_all in_page (outputs (app_prefix sample_now fresh_state) ++ [Write fetching_msg]) ;;
      ITree.bind ITree.spin k))
  /\ ~ any_finite (interp (run_h silent_h) (app_it sample_now fresh_state)).
Proof.
  apply (app_it_blocks sample_now fresh_state "DATE>20240102 DATE<20240401 COUNTRY:UK").
  vm_compute. reflexivity.
Defined.
